(** * nogging: configuration-driven logger set-up

    A shallow embedding of [src/nogging/__init__.py]: the upward search for
    [nogging.yaml] ([conf]) and the application of the parsed document to the
    logger registry ([Nogging.setup], [Nogging._setup_logger] and its
    helpers).  Python's [logging], [pathlib] and [yaml] are the collaborators
    of that code; the part of them the code touches is modelled below, next
    to the functions of the repository. *)

From Stdlib Require Import ZArith String Ascii.
From stdpp Require Import gmap strings list fin_maps.

Local Open Scope string_scope.
Local Open Scope Z_scope.
Local Open Scope list_scope.

(** ** Python values

    What [yaml.safe_load] hands to the code: null, booleans, integers,
    strings, sequences and mappings.  Mapping keys are strings (logger names
    and field names) and are kept in document order.  [VObj] is any other
    object, such as a function or a class found by [getattr(logging, ...)]. *)

#[warnings="-register-all"]
Inductive pyval : Type :=
| VNone
| VBool (b : bool)
| VInt (z : Z)
| VStr (s : string)
| VList (l : list pyval)
| VDict (d : list (string * pyval))
| VObj (name : string).

Inductive exn : Type :=
| KeyError
| TypeError
| AttributeError
| ValueError
| FileNotFoundError
| IsADirectoryError
| YAMLError
| OSError.

(** ** Paths and the file system

    A path is the list of its components, innermost first, so that the root
    is [[]], [p / c] is [c :: p] and [p.parent] is the tail of [p] (the root
    is its own parent). *)

Definition path : Type := list string.

Definition parent (p : path) : path := tail p.
Definition joinpath (p : path) (c : string) : path := c :: p.

(** The argument of [Path(path)]: anchored at the root or relative. *)
Inductive pathname : Type :=
| Absolute (p : path)
| Relative (p : path).

(** What [yaml.safe_load] makes of the text of a file. *)
Inductive yaml_text : Type :=
| Malformed
| Parsed (doc : pyval).

Inductive node : Type :=
| Absent
| Directory
| RegularFile (text : yaml_text).

(** ** The logging facility *)

Inductive sink : Type :=
| Stream_stdout
| File (filename mode encoding : string).

(** A handler object; [h_id] is its identity ([==] on handlers is [is]). *)
Record handler : Type := Handler {
  h_id : nat;
  h_sink : sink;
  h_level : Z;
  h_formatter : option pyval
}.

Record logger : Type := Logger {
  level : Z;
  handlers : list handler
}.

(** ** Diagnostics printed by [log] (time stamp and thread id left out) *)

Inductive severity : Type := INFO | WARNING | ERROR.

Inductive message : Type :=
| UsingConfigFile (p : path)        (* using config file "<p>" *)
| ConfigNotFound (c : string)       (* "<c>" not found! *)
| KeyNotFound (key : string)        (* format error! Key "<key>" not found. *)
| InvalidHandlerType (t : pyval).   (* invalid handler type "<t>"! *)

Inductive fs_event : Type :=
| Exists (p : path)
| Open (p : path).

(** ** The world outside the program *)

Record platform : Type := Platform {
  (* current working directory, used by [Path.absolute] *)
  cwd : path;
  (* the file system *)
  fs : path -> node;
  (* attributes of the [logging] module other than the level constants;
     [None] is a missing attribute *)
  logging_attr : string -> option pyval;
  (* [logging.Formatter(fmt)]: the exception it raises on [fmt], if any *)
  Formatter_error : pyval -> option exn;
  (* [logging.FileHandler(filename)]: the exception raised by opening
     [filename] for appending, if any *)
  FileHandler_error : string -> option exn
}.

(** ** Program state: the logger registry, standard output, and the trace
    of file-system calls *)

Record state : Type := State {
  loggers : gmap string logger;
  stdout : list (severity * message);
  probes : list fs_event
}.

Inductive outcome (A : Type) : Type :=
| Returns (a : A)
| Raises (e : exn).
Arguments Returns {A} a.
Arguments Raises {A} e.

(** A computation changes the state and returns or raises; the changes made
    before an exception stay. *)
Definition M (A : Type) : Type := state -> state * outcome A.

Definition ret {A} (a : A) : M A := fun st => (st, Returns a).
Definition raise {A} (e : exn) : M A := fun st => (st, Raises e).
Definition bind {A B} (m : M A) (k : A -> M B) : M B :=
  fun st =>
    match m st with
    | (st', Returns a) => k a st'
    | (st', Raises e) => (st', Raises e)
    end.
Definition try_except {A} (m : M A) (h : exn -> M A) : M A :=
  fun st =>
    match m st with
    | (st', Raises e) => h e st'
    | r => r
    end.

Notation "'do' x <- m ; k" := (bind m (fun x => k))
  (at level 10, x name, m at level 100, k at level 200, only parsing).
Notation "'do' ' pat <- m ; k" := (bind m (fun x => match x with pat => k end))
  (at level 10, pat pattern, m at level 100, k at level 200, only parsing).
Notation "m ;;; k" := (bind m (fun _ => k))
  (at level 100, k at level 200, right associativity, only parsing).

Fixpoint for_each {A} (xs : list A) (body : A -> M unit) : M unit :=
  match xs with
  | [] => ret tt
  | x :: rest => body x ;;; for_each rest body
  end.

(** [log(level, msg)] *)
Definition log (s : severity) (m : message) : M unit :=
  fun st => (State (loggers st) (stdout st ++ [(s, m)]) (probes st), Returns tt).

Definition probe (e : fs_event) : M unit :=
  fun st => (State (loggers st) (stdout st) (probes st ++ [e]), Returns tt).

(** ** Python operators on values *)

(** [bool(v)] *)
Definition truthy (v : pyval) : bool :=
  match v with
  | VNone => false
  | VBool b => b
  | VInt z => negb (z =? 0)
  | VStr s => negb (String.eqb s "")
  | VList l => match l with [] => false | _ => true end
  | VDict d => match d with [] => false | _ => true end
  | VObj _ => true
  end.

(** [a or b] *)
Definition py_or (a b : pyval) : pyval := if truthy a then a else b.

(** [v == s] for a string literal [s] *)
Definition eq_str (v : pyval) (s : string) : bool :=
  match v with
  | VStr t => String.eqb t s
  | _ => false
  end.

Fixpoint dict_get (d : list (string * pyval)) (k : string) : option pyval :=
  match d with
  | [] => None
  | (k', v) :: rest => if String.eqb k' k then Some v else dict_get rest k
  end.

(** [k in v] for a string [k] *)
Definition py_in (k : string) (v : pyval) : M bool :=
  match v with
  | VDict d => ret (match dict_get d k with Some _ => true | None => false end)
  | VList l => ret (existsb (fun x => eq_str x k) l)
  | VStr s => ret (match String.index 0 k s with Some _ => true | None => false end)
  | _ => raise TypeError
  end.

(** [v[k]] for a string [k] *)
Definition py_getitem (v : pyval) (k : string) : M pyval :=
  match v with
  | VDict d => match dict_get d k with Some x => ret x | None => raise KeyError end
  | _ => raise TypeError
  end.

(** The elements a [for] loop over [v] visits. *)
Definition py_iter (v : pyval) : M (list pyval) :=
  match v with
  | VList l => ret l
  | VDict d => ret (map (fun kv => VStr (fst kv)) d)
  | VStr s => ret (map (fun a => VStr (String a EmptyString)) (list_ascii_of_string s))
  | _ => raise TypeError
  end.

(** [v.items()] *)
Definition py_items (v : pyval) : M (list (string * pyval)) :=
  match v with
  | VDict d => ret d
  | _ => raise AttributeError
  end.

(** ** The [logging] module *)

(** The level constants of the module, which are also the keys of its
    [_nameToLevel] table. *)
Definition level_constant (name : string) : option Z :=
  if String.eqb name "CRITICAL" then Some 50
  else if String.eqb name "FATAL" then Some 50
  else if String.eqb name "ERROR" then Some 40
  else if String.eqb name "WARNING" then Some 30
  else if String.eqb name "WARN" then Some 30
  else if String.eqb name "INFO" then Some 20
  else if String.eqb name "DEBUG" then Some 10
  else if String.eqb name "NOTSET" then Some 0
  else None.

(** [logging._checkLevel(level)] *)
Definition _checkLevel (v : pyval) : M Z :=
  match v with
  | VInt z => ret z
  | VBool b => ret (if b then 1 else 0)
  | VStr s => match level_constant s with
              | Some z => ret z
              | None => raise ValueError
              end
  | _ => raise TypeError
  end.

(** A logger nobody has configured yet: the root logger (named by the empty
    string) starts at WARNING, the others at NOTSET. *)
Definition new_logger (name : string) : logger :=
  Logger (if String.eqb name "" then 30 else 0) [].

Definition logger_of (reg : gmap string logger) (name : string) : logger :=
  match reg !! name with
  | Some lg => lg
  | None => new_logger name
  end.

Definition set_logger (name : string) (lg : logger) : M unit :=
  fun st => (State (<[name := lg]> (loggers st)) (stdout st) (probes st), Returns tt).

(** [logging.getLogger(name)]: the logger is created on first use; the
    result is the name, which stands for the reference to the logger. *)
Definition getLogger (name : string) : M string :=
  fun st =>
    match loggers st !! name with
    | Some _ => (st, Returns name)
    | None => (State (<[name := new_logger name]> (loggers st)) (stdout st) (probes st),
               Returns name)
    end.

(** [h in hs] and [hs.remove(h)] on a list of handlers, by identity. *)
Definition same (h h' : handler) : bool := Nat.eqb (h_id h) (h_id h').

Fixpoint list_remove (h : handler) (hs : list handler) : list handler :=
  match hs with
  | [] => []
  | x :: rest => if same h x then rest else x :: list_remove h rest
  end.

Definition remove_handler (h : handler) (hs : list handler) : list handler :=
  if existsb (same h) hs then list_remove h hs else hs.

Definition add_handler (h : handler) (hs : list handler) : list handler :=
  if existsb (same h) hs then hs else hs ++ [h].

(** [logger.setLevel(level)] *)
Definition setLevel (name : string) (v : pyval) : M unit :=
  do z <- _checkLevel v;
  fun st =>
    let lg := logger_of (loggers st) name in
    set_logger name (Logger z (handlers lg)) st.

(** [logger.removeHandler(h)] *)
Definition removeHandler (name : string) (h : handler) : M unit :=
  fun st =>
    let lg := logger_of (loggers st) name in
    set_logger name (Logger (level lg) (remove_handler h (handlers lg))) st.

(** [logger.addHandler(h)] *)
Definition addHandler (name : string) (h : handler) : M unit :=
  fun st =>
    let lg := logger_of (loggers st) name in
    set_logger name (Logger (level lg) (add_handler h (handlers lg))) st.

(** The identity of a newly made handler differs from those of all the
    handlers the registry holds. *)
Definition max_id (hs : list handler) : nat := max_list (map h_id hs).

Definition fresh_id (reg : gmap string logger) : nat :=
  S (max_list (map (fun kv => max_id (handlers (snd kv))) (map_to_list reg))).

(** [for _ in logger.handlers: logger.removeHandler(_)]

    The loop walks the very list that [removeHandler] shrinks: the list
    iterator keeps an index [i], stops when [i] is past the end of the list
    as it is then, and otherwise visits the element at [i] and moves to
    [i + 1].  [fuel] bounds the number of visits. *)
Fixpoint remove_each (fuel : nat) (name : string) (i : nat) : M unit :=
  match fuel with
  | O => ret tt
  | S fuel' =>
      fun st =>
        match handlers (logger_of (loggers st) name) !! i with
        | None => (st, Returns tt)
        | Some h => (removeHandler name h ;;; remove_each fuel' name (S i)) st
        end
  end.

(** The list never grows during the loop, so its initial length is fuel
    enough (see [sweep_fuel]). *)
Definition remove_loop (name : string) : M unit :=
  fun st => remove_each (length (handlers (logger_of (loggers st) name))) name 0 st.

(** ** The functions of [nogging/__init__.py] *)

Definition APP : string := "nogging".

Section Nogging.

Variable E : platform.

(** [Path(path).absolute()] *)
Definition absolute (pn : pathname) : path :=
  match pn with
  | Absolute p => p
  | Relative p => (p ++ cwd E)%list
  end.

(** [p.exists()] *)
Definition path_exists (p : path) : M bool :=
  probe (Exists p) ;;;
  ret (match fs E p with Absent => false | _ => true end).

(** [yaml.safe_load(p.open())] *)
Definition open_and_load (p : path) : M pyval :=
  probe (Open p) ;;;
  match fs E p with
  | Absent => raise FileNotFoundError
  | Directory => raise IsADirectoryError
  | RegularFile Malformed => raise YAMLError
  | RegularFile (Parsed doc) => ret doc
  end.

(** The [while p.parent != p: ... else: ...] loop of [conf]; the result is
    the value of [p] after the loop.  Below the root [p] is [_ :: up] with
    [up] its parent; at the root the test fails and the [else] branch runs. *)
Fixpoint ascend (c : string) (p : path) : M path :=
  match p with
  | [] =>
      log WARNING (ConfigNotFound c) ;;;
      ret p
  | _ :: up =>
      do found <- path_exists (joinpath p c);
      if found then
        log INFO (UsingConfigFile (joinpath p c)) ;;;
        ret p
      else ascend c up
  end.

(** [conf(path, c, key)]; Python's [None] is returned as [VNone]. *)
Definition conf (pn : pathname) (c key : string) : M pyval :=
  do p <- ascend c (absolute pn);
  try_except
    (do doc <- open_and_load (joinpath p c);
     py_getitem doc key)
    (fun e =>
       match e with
       | FileNotFoundError => ret VNone
       | KeyError => log ERROR (KeyNotFound key) ;;; ret VNone
       | _ => raise e
       end).

(** [getattr(logging, name)] *)
Definition getattr_logging (name : string) : M pyval :=
  match level_constant name with
  | Some z => ret (VInt z)
  | None => match logging_attr E name with
            | Some v => ret v
            | None => raise AttributeError
            end
  end.

(** [Nogging._get_level] *)
Definition _get_level (handler_config : pyval) : M pyval :=
  do present <- py_in "level" handler_config;
  if (present : bool) then
    do level <- py_getitem handler_config "level";
    match level with
    | VStr s => getattr_logging s
    | _ => ret level
    end
  else ret VNone.

(** [Nogging._get_handlers] *)
Definition _get_handlers (handler_config : pyval) : M pyval :=
  do present <- py_in "handlers" handler_config;
  if (present : bool) then py_getitem handler_config "handlers"
  else ret VNone.

(** [logging.StreamHandler(sys.stdout)] *)
Definition StreamHandler_stdout : M handler :=
  fun st => (st, Returns (Handler (fresh_id (loggers st)) Stream_stdout 0 None)).

(** [logging.FileHandler(filename=..., encoding=...)]; the mode is the
    default one, ['a']. *)
Definition FileHandler (filename : pyval) (encoding : string) : M handler :=
  match filename with
  | VStr f =>
      match FileHandler_error E f with
      | Some e => raise e
      | None =>
          fun st => (st, Returns (Handler (fresh_id (loggers st)) (File f "a" encoding) 0 None))
      end
  | _ => raise TypeError
  end.

(** [Nogging._get_handler] *)
Definition _get_handler (handler_config : pyval) : M (option handler) :=
  do handler_type <- py_getitem handler_config "type";
  if eq_str handler_type "FileHandler" then
    do filename <- py_getitem handler_config "filename";
    do handler <- FileHandler filename "utf-8";
    ret (Some handler)
  else if eq_str handler_type "StreamHandler" then
    do handler <- StreamHandler_stdout;
    ret (Some handler)
  else
    log WARNING (InvalidHandlerType handler_type) ;;;
    ret None.

(** [Nogging._get_handler_formatter]; a formatter is given by its format. *)
Definition _get_handler_formatter (handler_config : pyval) : M (option pyval) :=
  do present <- py_in "format" handler_config;
  if (present : bool) then
    do fmt <- py_getitem handler_config "format";
    match Formatter_error E fmt with
    | Some e => raise e
    | None => ret (Some fmt)
    end
  else ret None.

(** The body of [for handler_config in handlers or []] in [_setup_logger]. *)
Definition setup_handler (logger : string) (handler_config : pyval) : M unit :=
  do handler <- _get_handler handler_config;
  match handler with
  | None => ret tt
  | Some handler =>
      do formatter <- _get_handler_formatter handler_config;
      let handler :=
        match formatter with
        | Some fmt => Handler (h_id handler) (h_sink handler) (h_level handler) (Some fmt)
        | None => handler
        end in
      do level <- _get_level handler_config;
      do handler <-
        match level with
        | VNone => ret handler
        | _ =>
            do z <- _checkLevel level;
            ret (Handler (h_id handler) (h_sink handler) z (h_formatter handler))
        end;
      addHandler logger handler
  end.

(** The block under [# setup level] in [_setup_logger]. *)
Definition setup_level (logger : string) (config : pyval) : M unit :=
  do level <- _get_level config;
  match level with
  | VNone => ret tt
  | _ => setLevel logger level
  end.

(** The block under [# setup handler] in [_setup_logger]. *)
Definition setup_handlers (logger : string) (config : pyval) : M unit :=
  do handlers <- _get_handlers config;
  match handlers with
  | VNone => ret tt
  | _ =>
      remove_loop logger ;;;
      do items <- py_iter (py_or handlers (VList []));
      for_each items (setup_handler logger)
  end.

(** [Nogging._setup_logger] *)
Definition _setup_logger (name : string) (config : pyval) : M unit :=
  do logger <- getLogger name;
  setup_level logger config ;;;
  setup_handlers logger config.

(** The loop of [Nogging.setup] on the document that [conf] returned. *)
Definition apply (document : pyval) : M unit :=
  do items <- py_items (py_or document (VDict []));
  for_each items (fun kv => _setup_logger (fst kv) (snd kv)).

(** [Nogging.setup] *)
Definition setup (pn : pathname) : M unit :=
  do document <- conf pn (APP +:+ ".yaml") "nogging";
  apply document.

End Nogging.

(** ** Notions used to state the properties *)

(** The logger a name stands for in a state. *)
Definition view (st : state) (name : string) : logger :=
  logger_of (loggers st) name.

(** What the removal loop of [_setup_logger] does to a list of handlers,
    read off [remove_each]: the iterator index [i] runs over the list that
    is being shortened. *)
Fixpoint sweep (fuel i : nat) (hs : list handler) : list handler :=
  match fuel with
  | O => hs
  | S fuel' =>
      match hs !! i with
      | None => hs
      | Some h => sweep fuel' (S i) (remove_handler h hs)
      end
  end.

Definition kept (hs : list handler) : list handler := sweep (length hs) 0 hs.

(** The elements at the odd positions (the second, the fourth, ...). *)
Fixpoint odds (hs : list handler) : list handler :=
  match hs with
  | [] => []
  | _ :: rest =>
      match rest with
      | [] => []
      | y :: rest' => y :: odds rest'
      end
  end.

(** The severity names of the specification and their numeric constants. *)
Definition severity_table : list (string * Z) :=
  [("DEBUG", 10); ("INFO", 20); ("WARNING", 30); ("ERROR", 40); ("CRITICAL", 50)].

(** A mapping without the key [k]. *)
Fixpoint dict_del (d : list (string * pyval)) (k : string) : list (string * pyval) :=
  match d with
  | [] => []
  | (k', v) :: rest =>
      if String.eqb k' k then dict_del rest k else (k', v) :: dict_del rest k
  end.

(** The directories from [below ++ up] up to, and without, [up]: nearest
    first. *)
Fixpoint chain (below up : path) : list path :=
  match below with
  | [] => []
  | _ :: rest => (below ++ up)%list :: chain rest up
  end.

(** The directory at which the search of [conf] stops: the nearest
    directory below the root, from [p] upwards, that holds an entry named
    [c], and the root if there is none. *)
Fixpoint nearest (E : platform) (c : string) (p : path) : path :=
  match p with
  | [] => []
  | _ :: up =>
      match fs E (joinpath p c) with
      | Absent => nearest E c up
      | _ => p
      end
  end.

(** The [exists] calls of that search, in order. *)
Fixpoint probed (E : platform) (c : string) (p : path) : list fs_event :=
  match p with
  | [] => []
  | _ :: up =>
      Exists (joinpath p c) ::
      match fs E (joinpath p c) with
      | Absent => probed E c up
      | _ => []
      end
  end.

(** The line the search prints when it stops at [p]. *)
Definition search_line (c : string) (p : path) : severity * message :=
  match p with
  | [] => (WARNING, ConfigNotFound c)
  | _ => (INFO, UsingConfigFile (joinpath p c))
  end.

(** The handler entries of the unknown-type scenario. *)
Definition stream_entry : pyval := VDict [("type", VStr "StreamHandler")].
Definition bogus_entry : pyval := VDict [("type", VStr "Bogus")].
Definition bogus_handlers : pyval := VList [stream_entry; bogus_entry; stream_entry].

(** A [level] field that [_get_level] and [setLevel] accept, with the
    numeric level it sets, if any. *)
Inductive level_field : option pyval -> option Z -> Prop :=
| level_absent : level_field None None
| level_null : level_field (Some VNone) None
| level_int z : level_field (Some (VInt z)) (Some z)
| level_name s z : level_constant s = Some z -> level_field (Some (VStr s)) (Some z).

(** Concrete worlds and states for the examples. *)
Definition empty_state : state := State ∅ [] [].

(** A world with the given files, the root as working directory, and a
    logging facility that accepts every format and opens every file. *)
Definition world (files : path -> node) : platform :=
  Platform [] files (fun _ => None) (fun _ => None) (fun _ => None).

Definition no_files : path -> node := fun _ => Absent.

(** A file system that holds [text] at [/a/nogging.yaml] and nothing else. *)
Definition only_in_a (text : yaml_text) : path -> node :=
  fun p => if decide (p = ["nogging.yaml"; "a"]) then RegularFile text else Absent.

(** A registry in which the logger [app] has two stream handlers. *)
Definition two_handlers : state :=
  State {[ "app" := Logger 0 [Handler 1 Stream_stdout 0 None;
                              Handler 2 Stream_stdout 0 None] ]} [] [].

(** A document that gives the logger [app] two stream handlers. *)
Definition two_streams : pyval :=
  VDict [("app", VDict [("handlers", VList [stream_entry; stream_entry])])].

(** A [FileHandler] entry without [filename], and a document that holds it. *)
Definition nameless_file_entry : list (string * pyval) :=
  [("type", VStr "FileHandler")].

Definition nameless_file_items : list (string * pyval) :=
  [("app", VDict [("handlers", VList [VDict nameless_file_entry])])].

(** Relations between the state before and after a computation. *)
Definition levels_kept (st st' : state) : Prop :=
  forall n, level (view st' n) = level (view st n).

Definition handlers_kept (st st' : state) : Prop :=
  forall n, handlers (view st' n) = handlers (view st n).

Definition output_kept (st st' : state) : Prop :=
  stdout st' = stdout st /\ probes st' = probes st.

Definition registry_kept (st st' : state) : Prop :=
  forall n, view st' n = view st n.

(** A computation that relates every state to the one it leaves. *)
Definition preserves {A} (R : state -> state -> Prop) (m : M A) : Prop :=
  forall st, R st (fst (m st)).

(** A computation that leaves the state alone. *)
Definition pure {A} (m : M A) : Prop := forall st, fst (m st) = st.

(** A computation that never returns normally. *)
Definition always_raises {A} (m : M A) : Prop :=
  forall st, exists e, snd (m st) = Raises e.



(** A [format] field that [logging.Formatter] accepts, with the formatter
    the handler gets, if any. *)
Inductive format_field (E : platform) : option pyval -> option pyval -> Prop :=
| format_absent : format_field E None None
| format_given fmt : Formatter_error E fmt = None -> format_field E (Some fmt) (Some fmt).

(** The numeric level a handler gets from its [level] field. *)
Definition handler_level (o : option Z) : Z :=
  match o with
  | Some z => z
  | None => 0
  end.

(** The [type] of a handler entry, and the types [_get_handler] does not know. *)
Definition entry_type (entry : pyval) : option pyval :=
  match entry with
  | VDict d => dict_get d "type"
  | _ => None
  end.

Definition unknown_type (t : pyval) : bool :=
  negb (eq_str t "FileHandler") && negb (eq_str t "StreamHandler").

(** A file system that holds [text] at [/nogging.yaml] and nothing else. *)
Definition only_at_root (text : yaml_text) : path -> node :=
  fun p => if decide (p = ["nogging.yaml"]) then RegularFile text else Absent.

(** A world without files whose logging facility rejects the empty format
    and cannot open [/forbidden.log]. *)
Definition strict_world : platform :=
  Platform [] no_files (fun _ => None)
    (fun fmt => if eq_str fmt "" then Some ValueError else None)
    (fun f => if String.eqb f "/forbidden.log" then Some OSError else None).

(** A registry in which the logger [app] has one stream handler. *)
Definition one_handler : state :=
  State {[ "app" := Logger 0 [Handler 1 Stream_stdout 0 None] ]} [] [].

(** A [level] field that makes [_get_level] or [setLevel] raise, with the
    exception: a name that is no attribute of [logging], a name of an
    attribute that is no level, a sequence, a mapping. *)
Inductive level_rejected (E : platform) : pyval -> exn -> Prop :=
| rejected_name s :
    level_constant s = None -> logging_attr E s = None ->
    level_rejected E (VStr s) AttributeError
| rejected_attribute s o :
    level_constant s = None -> logging_attr E s = Some (VObj o) ->
    level_rejected E (VStr s) TypeError
| rejected_list l : level_rejected E (VList l) TypeError
| rejected_dict m : level_rejected E (VDict m) TypeError.

(** A handler entry that [_get_handler] makes a handler of, with the sink of
    that handler. *)
Inductive entry_sink (E : platform) : list (string * pyval) -> sink -> Prop :=
| sink_stream e :
    dict_get e "type" = Some (VStr "StreamHandler") ->
    entry_sink E e Stream_stdout
| sink_file e f :
    dict_get e "type" = Some (VStr "FileHandler") ->
    dict_get e "filename" = Some (VStr f) ->
    FileHandler_error E f = None ->
    entry_sink E e (File f "a" "utf-8").

(** The specification of the scenario with one configured stream handler,
    and its handler entry. *)
Definition info_stream_entry : list (string * pyval) :=
  [("type", VStr "StreamHandler"); ("level", VStr "INFO"); ("format", VStr "%(message)s")].

Definition debug_with_stream : list (string * pyval) :=
  [("level", VStr "DEBUG"); ("handlers", VList [VDict info_stream_entry])].

(** ** The monad *)

Lemma bind_returns {A B} (m : M A) (k : A -> M B) st st1 a :
  m st = (st1, Returns a) -> bind m k st = k a st1.
Proof. unfold bind. intros ->. reflexivity. Qed.

Lemma bind_raises {A B} (m : M A) (k : A -> M B) st st1 e :
  m st = (st1, Raises e) -> bind m k st = (st1, Raises e).
Proof. unfold bind. intros ->. reflexivity. Qed.

Section Preservation.

Variable R : state -> state -> Prop.
Hypothesis R_refl : forall st, R st st.
Hypothesis R_trans : forall a b c, R a b -> R b c -> R a c.

Lemma pure_preserves {A} (m : M A) : pure m -> preserves R m.
Proof. intros Hp st. rewrite Hp. apply R_refl. Qed.

Lemma preserves_ret {A} (a : A) : preserves R (ret a).
Proof. intros st. apply R_refl. Qed.

Lemma preserves_raise {A} (e : exn) : preserves R (@raise A e).
Proof. intros st. apply R_refl. Qed.

Lemma preserves_bind {A B} (m : M A) (k : A -> M B) :
  preserves R m -> (forall a, preserves R (k a)) -> preserves R (bind m k).
Proof.
  intros Hm Hk st. unfold bind.
  specialize (Hm st). destruct (m st) as [st1 [a | e]]; simpl in *; auto.
  eapply R_trans; [exact Hm | apply Hk].
Qed.

Lemma preserves_for_each {A} (xs : list A) (body : A -> M unit) :
  (forall x, preserves R (body x)) -> preserves R (for_each xs body).
Proof.
  intros Hb. induction xs as [| x xs IH]; simpl.
  - apply preserves_ret.
  - apply preserves_bind; auto.
Qed.

End Preservation.

Lemma pure_ret {A} (a : A) : pure (ret a).
Proof. intros st. reflexivity. Qed.

Lemma pure_raise {A} (e : exn) : pure (@raise A e).
Proof. intros st. reflexivity. Qed.

Lemma pure_bind {A B} (m : M A) (k : A -> M B) :
  pure m -> (forall a, pure (k a)) -> pure (bind m k).
Proof.
  intros Hm Hk st. unfold bind.
  specialize (Hm st). destruct (m st) as [st1 [a | e]]; simpl in *; subst; auto.
  apply Hk.
Qed.

Lemma pure_py_in k v : pure (py_in k v).
Proof. destruct v; intros st; reflexivity. Qed.

Lemma pure_py_getitem v k : pure (py_getitem v k).
Proof.
  destruct v; intros st; try reflexivity.
  simpl. destruct (dict_get d k); reflexivity.
Qed.

Lemma pure_py_iter v : pure (py_iter v).
Proof. destruct v; intros st; reflexivity. Qed.

Lemma pure_checkLevel v : pure (_checkLevel v).
Proof.
  destruct v; intros st; try reflexivity.
  simpl. destruct (level_constant s); reflexivity.
Qed.

Lemma pure_getattr_logging E s : pure (getattr_logging E s).
Proof.
  intros st. unfold getattr_logging.
  destruct (level_constant s); [reflexivity |].
  destruct (logging_attr E s); reflexivity.
Qed.

Lemma pure_get_level E config : pure (_get_level E config).
Proof.
  unfold _get_level. apply pure_bind; [apply pure_py_in |].
  intros [|]; [| apply pure_ret].
  apply pure_bind; [apply pure_py_getitem |].
  intros v. destruct v; try apply pure_ret. apply pure_getattr_logging.
Qed.

Lemma pure_get_handlers config : pure (_get_handlers config).
Proof.
  unfold _get_handlers. apply pure_bind; [apply pure_py_in |].
  intros [|]; [apply pure_py_getitem | apply pure_ret].
Qed.

Lemma pure_get_handler_formatter E config : pure (_get_handler_formatter E config).
Proof.
  unfold _get_handler_formatter. apply pure_bind; [apply pure_py_in |].
  intros [|]; [| apply pure_ret].
  apply pure_bind; [apply pure_py_getitem |].
  intros v. destruct (Formatter_error E v); [apply pure_raise | apply pure_ret].
Qed.

(** ** The registry *)

Lemma logger_of_insert reg name lg n :
  logger_of (<[name := lg]> reg) n = if decide (n = name) then lg else logger_of reg n.
Proof.
  unfold logger_of. destruct (decide (n = name)) as [-> | Hne].
  - by rewrite lookup_insert_eq.
  - by rewrite lookup_insert_ne.
Qed.

Lemma view_set_logger name lg st n :
  view (fst (set_logger name lg st)) n = if decide (n = name) then lg else view st n.
Proof. unfold view, set_logger. simpl. apply logger_of_insert. Qed.

Lemma output_set_logger name lg st : output_kept st (fst (set_logger name lg st)).
Proof. split; reflexivity. Qed.

Lemma logger_eta (lg : logger) : Logger (level lg) (handlers lg) = lg.
Proof. destruct lg; reflexivity. Qed.

Lemma getLogger_returns name st : snd (getLogger name st) = Returns name.
Proof. unfold getLogger. destruct (loggers st !! name); reflexivity. Qed.

Lemma getLogger_registry name : preserves registry_kept (getLogger name).
Proof.
  intros st n. unfold getLogger, view.
  destruct (loggers st !! name) as [lg |] eqn:Hl; simpl; [reflexivity |].
  rewrite logger_of_insert. destruct (decide (n = name)) as [-> | Hne]; [| reflexivity].
  unfold logger_of. by rewrite Hl.
Qed.

Lemma getLogger_output name : preserves output_kept (getLogger name).
Proof.
  intros st. unfold getLogger.
  destruct (loggers st !! name); split; reflexivity.
Qed.

Lemma levels_kept_refl st : levels_kept st st.
Proof. intros n. reflexivity. Qed.

Lemma levels_kept_trans a b c : levels_kept a b -> levels_kept b c -> levels_kept a c.
Proof. intros H1 H2 n. rewrite H2. apply H1. Qed.

Lemma handlers_kept_refl st : handlers_kept st st.
Proof. intros n. reflexivity. Qed.

Lemma handlers_kept_trans a b c : handlers_kept a b -> handlers_kept b c -> handlers_kept a c.
Proof. intros H1 H2 n. rewrite H2. apply H1. Qed.

Lemma output_kept_refl st : output_kept st st.
Proof. split; reflexivity. Qed.

Lemma output_kept_trans a b c : output_kept a b -> output_kept b c -> output_kept a c.
Proof. intros [H1 H2] [H3 H4]. split; congruence. Qed.

Lemma registry_kept_refl st : registry_kept st st.
Proof. intros n. reflexivity. Qed.

Lemma registry_kept_trans a b c : registry_kept a b -> registry_kept b c -> registry_kept a c.
Proof. intros H1 H2 n. rewrite H2. apply H1. Qed.

Lemma registry_kept_levels a b : registry_kept a b -> levels_kept a b.
Proof. intros H n. by rewrite H. Qed.

Lemma registry_kept_handlers a b : registry_kept a b -> handlers_kept a b.
Proof. intros H n. by rewrite H. Qed.

#[local] Hint Resolve levels_kept_refl levels_kept_trans handlers_kept_refl
  handlers_kept_trans output_kept_refl output_kept_trans registry_kept_refl
  registry_kept_trans : core.

Ltac rel_side :=
  first [ exact levels_kept_refl | exact levels_kept_trans
        | exact handlers_kept_refl | exact handlers_kept_trans
        | exact output_kept_refl | exact output_kept_trans
        | exact registry_kept_refl | exact registry_kept_trans ].
Ltac pres_bind := apply preserves_bind; [rel_side | |].
Ltac pres_pure := apply pure_preserves; [rel_side |].
Ltac pres_ret := apply preserves_ret; rel_side.
Ltac pres_each := apply preserves_for_each; [rel_side | rel_side |].

Lemma log_registry s m : preserves registry_kept (log s m).
Proof. intros st n. reflexivity. Qed.

(** [setLevel] with an accepted level writes it and touches nothing else. *)
Lemma setLevel_run name v z st :
  _checkLevel v st = (st, Returns z) ->
  setLevel name v st =
    (fst (set_logger name (Logger z (handlers (view st name))) st), Returns tt).
Proof.
  intros Hc. unfold setLevel. erewrite bind_returns by exact Hc. reflexivity.
Qed.

Lemma setLevel_handlers name v : preserves handlers_kept (setLevel name v).
Proof.
  intros st n. unfold setLevel, bind.
  pose proof (pure_checkLevel v st) as Hp.
  destruct (_checkLevel v st) as [st1 [z | e]]; simpl in *; subst st1; [| reflexivity].
  change (handlers (view (fst (set_logger name (Logger z (handlers (view st name))) st)) n)
          = handlers (view st n)).
  rewrite view_set_logger. destruct (decide (n = name)) as [-> |]; reflexivity.
Qed.

Lemma setLevel_output name v : preserves output_kept (setLevel name v).
Proof.
  intros st. unfold setLevel, bind.
  pose proof (pure_checkLevel v st) as Hp.
  destruct (_checkLevel v st) as [st1 [z | e]]; simpl in *; subst st1; split; reflexivity.
Qed.

Lemma removeHandler_view name h st n :
  view (fst (removeHandler name h st)) n =
  if decide (n = name)
  then Logger (level (view st name)) (remove_handler h (handlers (view st name)))
  else view st n.
Proof. unfold removeHandler. apply view_set_logger. Qed.

Lemma addHandler_view name h st n :
  view (fst (addHandler name h st)) n =
  if decide (n = name)
  then Logger (level (view st name)) (add_handler h (handlers (view st name)))
  else view st n.
Proof. unfold addHandler. apply view_set_logger. Qed.

Lemma addHandler_levels name h : preserves levels_kept (addHandler name h).
Proof.
  intros st n. rewrite addHandler_view.
  destruct (decide (n = name)) as [-> |]; reflexivity.
Qed.

Lemma addHandler_output name h : preserves output_kept (addHandler name h).
Proof. intros st. split; reflexivity. Qed.

(** The removal loop always runs to its end; it leaves the handlers that
    [sweep] computes and changes nothing else. *)
Lemma remove_each_run fuel name : forall i st,
  snd (remove_each fuel name i st) = Returns tt /\
  output_kept st (fst (remove_each fuel name i st)) /\
  forall n,
    view (fst (remove_each fuel name i st)) n =
    if decide (n = name)
    then Logger (level (view st name)) (sweep fuel i (handlers (view st name)))
    else view st n.
Proof.
  induction fuel as [| fuel IH]; intros i st; simpl.
  - split; [reflexivity |]. split; [auto |].
    intros n. destruct (decide (n = name)) as [-> |]; [| reflexivity].
    by rewrite logger_eta.
  - fold (view st name).
    destruct (handlers (view st name) !! i) as [h |] eqn:Hi.
    + unfold bind. simpl.
      set (st1 := fst (removeHandler name h st)).
      change (removeHandler name h st) with (st1, Returns tt).
      destruct (IH (S i) st1) as (Hr & Ho & Hv).
      split; [exact Hr |]. split.
      * eapply output_kept_trans; [| exact Ho]. split; reflexivity.
      * intros n. rewrite Hv. subst st1. rewrite !removeHandler_view.
        destruct (decide (n = name)) as [-> |].
        -- rewrite decide_True by reflexivity. reflexivity.
        -- reflexivity.
    + split; [reflexivity |]. split; [auto |].
      intros n. destruct (decide (n = name)) as [-> |]; [| reflexivity].
      by rewrite logger_eta.
Qed.

Lemma remove_loop_run name st :
  snd (remove_loop name st) = Returns tt /\
  output_kept st (fst (remove_loop name st)) /\
  forall n,
    view (fst (remove_loop name st)) n =
    if decide (n = name)
    then Logger (level (view st name)) (kept (handlers (view st name)))
    else view st n.
Proof. unfold remove_loop. apply remove_each_run. Qed.

Lemma remove_loop_levels name : preserves levels_kept (remove_loop name).
Proof.
  intros st n. destruct (remove_loop_run name st) as (_ & _ & Hv).
  rewrite Hv. destruct (decide (n = name)) as [-> |]; reflexivity.
Qed.

(** ** Mappings *)

Lemma dict_get_del_ne d k k' :
  k' <> k -> dict_get (dict_del d k) k' = dict_get d k'.
Proof.
  intros Hne. induction d as [| [k0 v] d IH]; simpl; [reflexivity |].
  destruct (String.eqb k0 k) eqn:Hk.
  - apply String.eqb_eq in Hk. subst k0.
    destruct (String.eqb k k') eqn:Hk'; [| exact IH].
    apply String.eqb_eq in Hk'. congruence.
  - simpl. destruct (String.eqb k0 k'); [reflexivity | exact IH].
Qed.

Lemma dict_get_del_eq d k : dict_get (dict_del d k) k = None.
Proof.
  induction d as [| [k0 v] d IH]; simpl; [reflexivity |].
  destruct (String.eqb k0 k) eqn:Hk; [exact IH |].
  simpl. rewrite Hk. exact IH.
Qed.

(** ** The two blocks of [_setup_logger] *)

Lemma get_level_del E d :
  _get_level E (VDict (dict_del d "handlers")) = _get_level E (VDict d).
Proof.
  unfold _get_level. simpl.
  rewrite dict_get_del_ne by discriminate. reflexivity.
Qed.

Lemma get_level_run E d o st :
  level_field (dict_get d "level") o ->
  _get_level E (VDict d) st =
    (st, Returns (match o with Some z => VInt z | None => VNone end)).
Proof.
  intros H. unfold _get_level, bind. simpl.
  inversion H as [Hd | Hd | z Hd | s z Hs Hd]; subst; try reflexivity.
  simpl. unfold getattr_logging. rewrite Hs. reflexivity.
Qed.

Lemma setup_level_run E name d o st :
  level_field (dict_get d "level") o ->
  setup_level E name (VDict d) st =
    (match o with
     | Some z => fst (set_logger name (Logger z (handlers (view st name))) st)
     | None => st
     end, Returns tt).
Proof.
  intros H. unfold setup_level.
  erewrite bind_returns by (eapply get_level_run; exact H).
  destruct o as [z |]; [| reflexivity].
  apply setLevel_run. reflexivity.
Qed.

Lemma setup_level_handlers E name config :
  preserves handlers_kept (setup_level E name config).
Proof.
  unfold setup_level. pres_bind.
  - pres_pure. apply pure_get_level.
  - intros v. destruct v; try apply setLevel_handlers. pres_ret.
Qed.

Lemma setup_level_output E name config :
  preserves output_kept (setup_level E name config).
Proof.
  unfold setup_level. pres_bind.
  - pres_pure. apply pure_get_level.
  - intros v. destruct v; try apply setLevel_output. pres_ret.
Qed.

Lemma pure_StreamHandler : pure StreamHandler_stdout.
Proof. intros st. reflexivity. Qed.

Lemma pure_FileHandler E filename encoding : pure (FileHandler E filename encoding).
Proof.
  intros st. destruct filename; try reflexivity.
  simpl. destruct (FileHandler_error E s); reflexivity.
Qed.

Lemma get_handler_registry E config : preserves registry_kept (_get_handler E config).
Proof.
  unfold _get_handler. pres_bind.
  - pres_pure. apply pure_py_getitem.
  - intros t. destruct (eq_str t "FileHandler").
    + pres_pure.
      apply pure_bind; [apply pure_py_getitem |]. intros f.
      apply pure_bind; [apply pure_FileHandler |]. intros h. apply pure_ret.
    + destruct (eq_str t "StreamHandler").
      * pres_pure.
        apply pure_bind; [apply pure_StreamHandler |]. intros h. apply pure_ret.
      * pres_bind; [apply log_registry |].
        intros _. pres_ret.
Qed.

Lemma setup_handler_levels E name config :
  preserves levels_kept (setup_handler E name config).
Proof.
  unfold setup_handler. pres_bind.
  - intros st. apply registry_kept_levels. apply get_handler_registry.
  - intros [h |]; [| pres_ret].
    pres_bind.
    { pres_pure. apply pure_get_handler_formatter. }
    intros f. pres_bind.
    { pres_pure. apply pure_get_level. }
    intros v. pres_bind.
    + pres_pure.
      destruct v; try apply pure_ret;
        (apply pure_bind; [apply pure_checkLevel | intros z; apply pure_ret]).
    + intros h'. apply addHandler_levels.
Qed.

Lemma setup_handlers_levels E name config :
  preserves levels_kept (setup_handlers E name config).
Proof.
  unfold setup_handlers. pres_bind.
  - pres_pure. apply pure_get_handlers.
  - intros v.
    assert (Hloop : preserves levels_kept
              (remove_loop name ;;;
               do items <- py_iter (py_or v (VList []));
               for_each items (setup_handler E name))).
    { pres_bind; [apply remove_loop_levels |].
      intros _. pres_bind.
      - pres_pure. apply pure_py_iter.
      - intros items. pres_each.
        intros x. apply setup_handler_levels. }
    destruct v; try exact Hloop. pres_ret.
Qed.

(** Without a [handlers] entry, or with a null one, the handler block does
    nothing at all. *)
Lemma setup_handlers_skip E name d st :
  dict_get d "handlers" = None \/ dict_get d "handlers" = Some VNone ->
  setup_handlers E name (VDict d) st = (st, Returns tt).
Proof.
  intros [H | H]; unfold setup_handlers, _get_handlers, bind; simpl; rewrite H; reflexivity.
Qed.

Lemma logger_level_after_setup E name d o st :
  level_field (dict_get d "level") o ->
  level (view (fst (_setup_logger E name (VDict d) st)) name) =
  match o with Some z => z | None => level (view st name) end.
Proof.
  intros H. unfold _setup_logger.
  pose proof (getLogger_returns name st) as Hr.
  pose proof (getLogger_registry name st) as Hk.
  destruct (getLogger name st) as [st0 r] eqn:Hg. simpl in Hr, Hk. subst r.
  erewrite bind_returns by exact Hg.
  erewrite bind_returns by (eapply setup_level_run; exact H).
  rewrite (setup_handlers_levels E name (VDict d) _ name).
  destruct o as [z |].
  - rewrite view_set_logger. rewrite decide_True by reflexivity. reflexivity.
  - by rewrite Hk.
Qed.

Lemma severity_table_constant s z :
  In (s, z) severity_table -> level_constant s = Some z.
Proof.
  simpl. intros [H | [H | [H | [H | [H | []]]]]]; inversion H; reflexivity.
Qed.

(** ** Properties of [_setup_logger] *)

(** C9: a [level] that is one of the names DEBUG, INFO, WARNING, ERROR,
    CRITICAL sets the logger's level to the corresponding constant, an
    integer [level] is used as it is, and without a [level] the logger keeps
    the level it had. *)
Theorem setup_logger_level E name d st :
  let st' := fst (_setup_logger E name (VDict d) st) in
  (forall s z, In (s, z) severity_table ->
     dict_get d "level" = Some (VStr s) -> level (view st' name) = z) /\
  (forall z, dict_get d "level" = Some (VInt z) -> level (view st' name) = z) /\
  (dict_get d "level" = None -> level (view st' name) = level (view st name)).
Proof.
  cbv zeta. split; [| split].
  - intros s z Hin Hd.
    apply (logger_level_after_setup E name d (Some z) st).
    rewrite Hd. constructor. by apply severity_table_constant.
  - intros z Hd.
    apply (logger_level_after_setup E name d (Some z) st). rewrite Hd. constructor.
  - intros Hd.
    apply (logger_level_after_setup E name d None st). rewrite Hd. constructor.
Qed.

(** C4: a logger specification without a [handlers] key leaves the handler
    list of the logger (and of every other logger) as it was: same handlers,
    same order. *)
Theorem level_only_keeps_handlers E name d st :
  dict_get d "handlers" = None ->
  forall n,
    handlers (view (fst (_setup_logger E name (VDict d) st)) n) = handlers (view st n).
Proof.
  intros H n. unfold _setup_logger.
  pose proof (getLogger_returns name st) as Hr.
  pose proof (getLogger_registry name st) as Hk.
  destruct (getLogger name st) as [st0 r] eqn:Hg. simpl in Hr, Hk. subst r.
  erewrite bind_returns by exact Hg.
  pose proof (setup_level_handlers E name (VDict d) st0) as Hl.
  unfold bind. destruct (setup_level E name (VDict d) st0) as [st1 [[] | e]]; simpl in Hl.
  - rewrite setup_handlers_skip by (left; exact H). simpl.
    rewrite Hl. by rewrite Hk.
  - simpl. rewrite Hl. by rewrite Hk.
Qed.

(** C10: a [handlers] key whose value is null is not told apart from a
    missing key: the run is the same as on the specification without the
    key, and no handler of any logger is removed or replaced. *)
Theorem null_handlers_same_as_absent E name d st :
  dict_get d "handlers" = Some VNone ->
  _setup_logger E name (VDict d) st =
    _setup_logger E name (VDict (dict_del d "handlers")) st /\
  forall n,
    handlers (view (fst (_setup_logger E name (VDict d) st)) n) = handlers (view st n).
Proof.
  intros H.
  assert (Hgoal : forall st0,
            (setup_level E name (VDict d) ;;; setup_handlers E name (VDict d)) st0 =
            (setup_level E name (VDict (dict_del d "handlers")) ;;;
             setup_handlers E name (VDict (dict_del d "handlers"))) st0 /\
            handlers_kept st0
              (fst ((setup_level E name (VDict d) ;;; setup_handlers E name (VDict d)) st0))).
  { intros st0. unfold bind.
    assert (Hlv : setup_level E name (VDict (dict_del d "handlers")) st0 =
                  setup_level E name (VDict d) st0).
    { unfold setup_level. by rewrite get_level_del. }
    rewrite Hlv.
    pose proof (setup_level_handlers E name (VDict d) st0) as Hl.
    destruct (setup_level E name (VDict d) st0) as [st1 [[] | e]]; simpl in Hl.
    - rewrite !setup_handlers_skip; auto.
      left. apply dict_get_del_eq.
    - auto. }
  unfold _setup_logger.
  pose proof (getLogger_returns name st) as Hr.
  pose proof (getLogger_registry name st) as Hk.
  destruct (getLogger name st) as [st0 r] eqn:Hg. simpl in Hr, Hk. subst r.
  rewrite !(bind_returns _ _ _ _ _ Hg).
  destruct (Hgoal st0) as [Heq Hkeep]. split; [exact Heq |].
  intros n. rewrite Hkeep. by rewrite Hk.
Qed.

(** ** Identity of new handlers *)

Lemma max_id_ge h hs : In h hs -> (h_id h <= max_id hs)%nat.
Proof.
  intros Hin. unfold max_id. apply max_list_elem_of_le.
  apply list_elem_of_In. apply in_map. exact Hin.
Qed.

Lemma fresh_id_gt reg n h :
  In h (handlers (logger_of reg n)) -> (h_id h < fresh_id reg)%nat.
Proof.
  unfold logger_of, fresh_id. destruct (reg !! n) as [lg |] eqn:Hl; [| intros []].
  intros Hin. apply max_id_ge in Hin.
  assert (max_id (handlers lg) <=
          max_list (map (fun kv => max_id (handlers (snd kv))) (map_to_list reg)))%nat.
  { apply max_list_elem_of_le. apply list_elem_of_In.
    apply (in_map (fun kv => max_id (handlers (snd kv))) _ (n, lg)).
    apply list_elem_of_In. by apply elem_of_map_to_list. }
  lia.
Qed.

Lemma add_handler_new h hs :
  (forall x, In x hs -> h_id x <> h_id h) -> add_handler h hs = (hs ++ [h])%list.
Proof.
  intros Hnew. unfold add_handler.
  destruct (existsb (same h) hs) eqn:Hex; [| reflexivity].
  apply existsb_exists in Hex. destruct Hex as (x & Hin & Hs).
  unfold same in Hs. apply Nat.eqb_eq in Hs.
  exfalso. apply (Hnew x Hin). congruence.
Qed.

(** ** The handler block on the unknown-type scenario *)

Lemma setup_handler_stream E name st :
  setup_handler E name stream_entry st =
  addHandler name (Handler (fresh_id (loggers st)) Stream_stdout 0 None) st.
Proof. reflexivity. Qed.

Lemma setup_handler_bogus E name st :
  setup_handler E name bogus_entry st = log WARNING (InvalidHandlerType (VStr "Bogus")) st.
Proof. reflexivity. Qed.

Lemma get_handlers_run d v st :
  dict_get d "handlers" = Some v -> _get_handlers (VDict d) st = (st, Returns v).
Proof.
  intros H. unfold _get_handlers, bind. simpl. rewrite H. reflexivity.
Qed.

Lemma remove_loop_pair name st :
  remove_loop name st = (fst (remove_loop name st), Returns tt).
Proof.
  destruct (remove_loop_run name st) as (Hr & _).
  destruct (remove_loop name st) as [st1 r]. simpl in *. by subst r.
Qed.

Lemma py_iter_list l st : py_iter (py_or (VList l) (VList [])) st = (st, Returns l).
Proof. destruct l; reflexivity. Qed.

(** With a list under [handlers], the block is the removal loop followed by
    the loop over the entries. *)
Lemma setup_handlers_list E name d l st :
  dict_get d "handlers" = Some (VList l) ->
  setup_handlers E name (VDict d) st =
  for_each l (setup_handler E name) (fst (remove_loop name st)).
Proof.
  intros H. unfold setup_handlers.
  erewrite bind_returns by (apply get_handlers_run; exact H).
  cbv beta iota.
  erewrite bind_returns by apply remove_loop_pair.
  erewrite bind_returns by apply py_iter_list.
  reflexivity.
Qed.

Lemma setup_handlers_bogus E name d st :
  dict_get d "handlers" = Some bogus_handlers ->
  exists i1 i2 : nat,
    (i1 < i2)%nat /\
    snd (setup_handlers E name (VDict d) st) = Returns tt /\
    stdout (fst (setup_handlers E name (VDict d) st)) =
      (stdout st ++ [(WARNING, InvalidHandlerType (VStr "Bogus"))])%list /\
    view (fst (setup_handlers E name (VDict d) st)) name =
      Logger (level (view st name))
             (kept (handlers (view st name)) ++
              [Handler i1 Stream_stdout 0 None; Handler i2 Stream_stdout 0 None])%list.
Proof.
  intros H. rewrite (setup_handlers_list E name d _ st H).
  destruct (remove_loop_run name st) as (_ & [Ho _] & Hv).
  specialize (Hv name). rewrite decide_True in Hv by reflexivity.
  set (st1 := fst (remove_loop name st)) in *.
  set (h1 := Handler (fresh_id (loggers st1)) Stream_stdout 0 None).
  set (st2 := fst (addHandler name h1 st1)).
  set (st3 := fst (log WARNING (InvalidHandlerType (VStr "Bogus")) st2)).
  set (h2 := Handler (fresh_id (loggers st3)) Stream_stdout 0 None).
  set (st4 := fst (addHandler name h2 st3)).
  assert (Hrun :
    for_each [stream_entry; bogus_entry; stream_entry] (setup_handler E name) st1 =
    (st4, Returns tt)).
  { reflexivity. }
  rewrite Hrun. simpl fst. simpl snd.
  assert (Hv2 : view st2 name = Logger (level (view st name))
                  (kept (handlers (view st name)) ++ [h1])%list).
  { subst st2. rewrite addHandler_view, decide_True by reflexivity. rewrite Hv. simpl.
    f_equal. apply add_handler_new. intros x Hin.
    assert (h_id x < fresh_id (loggers st1))%nat.
    { apply (fresh_id_gt _ name). unfold view in Hv. rewrite Hv. exact Hin. }
    change (h_id h1) with (fresh_id (loggers st1)). lia. }
  assert (Hlt : (h_id h1 < h_id h2)%nat).
  { apply (fresh_id_gt (loggers st3) name).
    change (logger_of (loggers st3) name) with (view st2 name).
    rewrite Hv2. simpl. apply in_or_app. right. left. reflexivity. }
  exists (h_id h1), (h_id h2). split; [exact Hlt |]. split; [reflexivity |]. split.
  - subst st4 st3 st2. simpl. by rewrite Ho.
  - subst st4. rewrite addHandler_view, decide_True by reflexivity.
    change (view st3 name) with (view st2 name). rewrite Hv2. simpl.
    f_equal. rewrite add_handler_new.
    + rewrite <- app_assoc. reflexivity.
    + intros x Hin.
      assert (h_id x < fresh_id (loggers st3))%nat.
      { apply (fresh_id_gt _ name).
        change (logger_of (loggers st3) name) with (view st2 name).
        rewrite Hv2. exact Hin. }
      change (h_id h2) with (fresh_id (loggers st3)). lia.
Qed.

(** C5: with the handler list [StreamHandler, Bogus, StreamHandler] the
    call returns normally, prints one warning for the unknown type, appends
    exactly two stream handlers to what the removal loop left, the first
    entry's handler before the third entry's, and the level of the
    specification is applied as well. *)
Theorem unknown_handler_type_skipped E name d o st :
  dict_get d "handlers" = Some bogus_handlers ->
  level_field (dict_get d "level") o ->
  let r := _setup_logger E name (VDict d) st in
  snd r = Returns tt /\
  stdout (fst r) = (stdout st ++ [(WARNING, InvalidHandlerType (VStr "Bogus"))])%list /\
  (exists i1 i2 : nat,
      (i1 < i2)%nat /\
      handlers (view (fst r) name) =
        (kept (handlers (view st name)) ++
         [Handler i1 Stream_stdout 0 None; Handler i2 Stream_stdout 0 None])%list) /\
  level (view (fst r) name) =
    match o with Some z => z | None => level (view st name) end.
Proof.
  intros Hh Hl. cbv zeta.
  split; [| split; [| split]]; [| | | by apply logger_level_after_setup].
  all: unfold _setup_logger.
  all: pose proof (getLogger_returns name st) as Hr.
  all: pose proof (getLogger_registry name st) as Hk.
  all: pose proof (getLogger_output name st) as [Hout _].
  all: destruct (getLogger name st) as [st0 r] eqn:Hg; simpl in Hr, Hk, Hout; subst r.
  all: erewrite bind_returns by exact Hg.
  all: erewrite bind_returns by (eapply setup_level_run; exact Hl).
  all: set (st1 := match o with
                   | Some z => fst (set_logger name (Logger z (handlers (view st0 name))) st0)
                   | None => st0
                   end).
  all: destruct (setup_handlers_bogus E name d st1 Hh) as (i1 & i2 & Hlt & Hret & Hso & Hv).
  - exact Hret.
  - rewrite Hso. f_equal. rewrite <- Hout. subst st1. by destruct o.
  - exists i1, i2. split; [exact Hlt |]. rewrite Hv. simpl.
    f_equal. f_equal. rewrite <- Hk. subst st1. destruct o as [z |]; [| reflexivity].
    rewrite view_set_logger, decide_True by reflexivity. reflexivity.
Qed.

(** ** Handler construction *)

Lemma for_each_always_raises {A} (xs : list A) (body : A -> M unit) x :
  In x xs -> always_raises (body x) -> always_raises (for_each xs body).
Proof.
  intros Hin Hx. induction xs as [| y ys IH]; [destruct Hin |].
  intros st. simpl. unfold bind.
  destruct (body y st) as [st1 [[] | e]] eqn:Hy.
  - destruct Hin as [-> | Hin].
    + destruct (Hx st) as [e He]. rewrite Hy in He. discriminate.
    + apply IH. exact Hin.
  - eauto.
Qed.

Lemma get_handler_no_filename E d st :
  dict_get d "type" = Some (VStr "FileHandler") ->
  dict_get d "filename" = None ->
  _get_handler E (VDict d) st = (st, Raises KeyError).
Proof.
  intros Ht Hf. unfold _get_handler, bind. simpl. rewrite Ht. simpl. rewrite Hf. reflexivity.
Qed.

Lemma setup_handler_no_filename E name d :
  dict_get d "type" = Some (VStr "FileHandler") ->
  dict_get d "filename" = None ->
  always_raises (setup_handler E name (VDict d)).
Proof.
  intros Ht Hf st. exists KeyError. unfold setup_handler.
  erewrite bind_raises by (apply get_handler_no_filename; assumption). reflexivity.
Qed.

Lemma setup_logger_no_filename E name d hs entry :
  dict_get d "handlers" = Some (VList hs) ->
  In (VDict entry) hs ->
  dict_get entry "type" = Some (VStr "FileHandler") ->
  dict_get entry "filename" = None ->
  always_raises (_setup_logger E name (VDict d)).
Proof.
  intros Hh Hin Ht Hf st. unfold _setup_logger.
  pose proof (getLogger_returns name st) as Hr.
  destruct (getLogger name st) as [st0 r] eqn:Hg. simpl in Hr. subst r.
  erewrite bind_returns by exact Hg.
  unfold bind. destruct (setup_level E name (VDict d) st0) as [st1 [[] | e]]; [| eauto].
  rewrite (setup_handlers_list E name d hs st1 Hh).
  eapply for_each_always_raises; [exact Hin |].
  by apply setup_handler_no_filename.
Qed.

(** C8: a [FileHandler] entry without [filename] makes [_get_handler] raise
    [KeyError]; the exception is not absorbed: [apply], and so [setup], on a
    document that holds such an entry never returns normally.  With a
    [filename] that can be opened, the handler made appends to that file,
    encoded as UTF-8. *)
Theorem file_handler_filename E :
  (forall d st,
      dict_get d "type" = Some (VStr "FileHandler") ->
      dict_get d "filename" = None ->
      _get_handler E (VDict d) st = (st, Raises KeyError)) /\
  (forall items name d hs entry st,
      In (name, VDict d) items ->
      dict_get d "handlers" = Some (VList hs) ->
      In (VDict entry) hs ->
      dict_get entry "type" = Some (VStr "FileHandler") ->
      dict_get entry "filename" = None ->
      exists e, snd (apply E (VDict items) st) = Raises e) /\
  (forall pn items name d hs entry st st1,
      conf E pn (APP +:+ ".yaml") "nogging" st = (st1, Returns (VDict items)) ->
      In (name, VDict d) items ->
      dict_get d "handlers" = Some (VList hs) ->
      In (VDict entry) hs ->
      dict_get entry "type" = Some (VStr "FileHandler") ->
      dict_get entry "filename" = None ->
      exists e, snd (setup E pn st) = Raises e) /\
  (forall d f st,
      dict_get d "type" = Some (VStr "FileHandler") ->
      dict_get d "filename" = Some (VStr f) ->
      FileHandler_error E f = None ->
      exists h,
        _get_handler E (VDict d) st = (st, Returns (Some h)) /\
        h_sink h = File f "a" "utf-8").
Proof.
  assert (Happly : forall items name d hs entry st,
      In (name, VDict d) items ->
      dict_get d "handlers" = Some (VList hs) ->
      In (VDict entry) hs ->
      dict_get entry "type" = Some (VStr "FileHandler") ->
      dict_get entry "filename" = None ->
      exists e, snd (apply E (VDict items) st) = Raises e).
  { intros items name d hs entry st Hin Hh Hin' Ht Hf.
    unfold apply.
    assert (Hitems : py_items (py_or (VDict items) (VDict [])) st = (st, Returns items)).
    { destruct items; [destruct Hin | reflexivity]. }
    erewrite bind_returns by exact Hitems.
    eapply (for_each_always_raises items _ (name, VDict d)); [exact Hin |].
    simpl. eapply setup_logger_no_filename; eassumption. }
  split; [| split; [| split]].
  - intros d st. apply get_handler_no_filename.
  - exact Happly.
  - intros pn items name d hs entry st st1 Hconf Hin Hh Hin' Ht Hf.
    unfold setup. erewrite bind_returns by exact Hconf.
    eapply Happly; eassumption.
  - intros d f st Ht Hf Hopen.
    eexists. split.
    + unfold _get_handler, bind. simpl. rewrite Ht. simpl. rewrite Hf. simpl.
      rewrite Hopen. reflexivity.
    + reflexivity.
Qed.

(** ** The search for the configuration file *)

(** The test [p.parent != p] of the loop holds exactly below the root, which
    is how [ascend] reads it. *)
Lemma parent_ne p : parent p <> p <-> p <> [].
Proof.
  split.
  - intros H ->. by apply H.
  - intros Hp Heq. destruct p as [| x up]; [by apply Hp |].
    apply (f_equal length) in Heq. simpl in Heq. lia.
Qed.

Lemma nearest_found E c p :
  match nearest E c p with
  | [] => True
  | q => fs E (joinpath q c) <> Absent
  end.
Proof.
  induction p as [| x up IH]; simpl; [exact I |].
  destruct (fs E (joinpath (x :: up) c)) eqn:Hf; [exact IH | |]; congruence.
Qed.

Lemma ascend_run E c p st :
  ascend E c p st =
  (State (loggers st)
         (stdout st ++ [search_line c (nearest E c p)])
         (probes st ++ probed E c p),
   Returns (nearest E c p)).
Proof.
  revert st. induction p as [| x up IH]; intros st.
  - simpl. unfold bind, log, ret. simpl. by rewrite app_nil_r.
  - simpl. unfold path_exists, bind, probe, ret. simpl.
    destruct (fs E (joinpath (x :: up) c)) eqn:Hf.
    + rewrite IH. simpl. by rewrite <- app_assoc.
    + reflexivity.
    + reflexivity.
Qed.

Lemma nearest_chain E c below up :
  (forall q, In q (chain below up) -> fs E (joinpath q c) = Absent) ->
  nearest E c (below ++ up) = nearest E c up /\
  probed E c (below ++ up) =
    (map (fun q => Exists (joinpath q c)) (chain below up) ++ probed E c up)%list.
Proof.
  induction below as [| x below IH]; intros Hab; [split; reflexivity |].
  assert (Hx : fs E (joinpath ((x :: below) ++ up) c) = Absent).
  { apply Hab. left. reflexivity. }
  destruct IH as [IHn IHp].
  { intros q Hq. apply Hab. right. exact Hq. }
  split.
  - change (nearest E c ((x :: below) ++ up))
      with (match fs E (joinpath ((x :: below) ++ up) c) with
            | Absent => nearest E c (below ++ up)
            | _ => ((x :: below) ++ up)%list
            end).
    rewrite Hx. exact IHn.
  - change (probed E c ((x :: below) ++ up))
      with (Exists (joinpath ((x :: below) ++ up) c) ::
            match fs E (joinpath ((x :: below) ++ up) c) with
            | Absent => probed E c (below ++ up)
            | _ => []
            end).
    rewrite Hx, IHp. reflexivity.
Qed.

Lemma chain_suffix below up q : In q (chain below up) -> suffix q (below ++ up).
Proof.
  induction below as [| x below IH]; simpl; [intros [] |].
  intros [<- | Hin].
  - reflexivity.
  - apply suffix_cons_r. apply IH. exact Hin.
Qed.

(** The outcome of [conf] is decided by the entry at the place where the
    search stopped. *)
Lemma conf_run E pn c key st :
  let p := nearest E c (absolute E pn) in
  let st1 := State (loggers st)
                   (stdout st ++ [search_line c p])
                   (probes st ++ probed E c (absolute E pn) ++ [Open (joinpath p c)]) in
  conf E pn c key st =
  match fs E (joinpath p c) with
  | Absent => (st1, Returns VNone)
  | Directory => (st1, Raises IsADirectoryError)
  | RegularFile Malformed => (st1, Raises YAMLError)
  | RegularFile (Parsed (VDict d)) =>
      match dict_get d key with
      | Some v => (st1, Returns v)
      | None => (State (loggers st1) (stdout st1 ++ [(ERROR, KeyNotFound key)]) (probes st1),
                 Returns VNone)
      end
  | RegularFile (Parsed _) => (st1, Raises TypeError)
  end.
Proof.
  cbv zeta. unfold conf.
  erewrite bind_returns by apply ascend_run.
  unfold try_except, open_and_load, bind, probe, ret. simpl.
  rewrite <- app_assoc.
  destruct (fs E (joinpath (nearest E c (absolute E pn)) c)) as [| | [| doc]];
    try reflexivity.
  destruct doc; try reflexivity.
  simpl. destruct (dict_get d key); reflexivity.
Qed.

(** C3, as amended: [conf] returns [None] without raising when no file is
    found and when the file parses to a mapping that lacks the top-level
    key, and only the latter prints the ERROR line; a file that does not
    parse makes [conf] raise, as does a document that is not a mapping or a
    directory in the place of the file. *)
Theorem conf_outcome E pn c key st :
  let p := nearest E c (absolute E pn) in
  let r := conf E pn c key st in
  match fs E (joinpath p c) with
  | Absent =>
      snd r = Returns VNone /\ stdout (fst r) = stdout st ++ [search_line c p]
  | RegularFile (Parsed (VDict d)) =>
      match dict_get d key with
      | Some v =>
          snd r = Returns v /\ stdout (fst r) = stdout st ++ [search_line c p]
      | None =>
          snd r = Returns VNone /\
          stdout (fst r) = stdout st ++ [search_line c p; (ERROR, KeyNotFound key)]
      end
  | RegularFile Malformed => snd r = Raises YAMLError
  | RegularFile (Parsed _) => snd r = Raises TypeError
  | Directory => snd r = Raises IsADirectoryError
  end.
Proof.
  cbv zeta. rewrite conf_run.
  destruct (fs E (joinpath (nearest E c (absolute E pn)) c)) as [| | [| doc]];
    try (split; reflexivity); try reflexivity.
  destruct doc; try reflexivity.
  destruct (dict_get d key); split; try reflexivity.
  simpl. by rewrite <- app_assoc.
Qed.

(** C3, as stated, fails: a configuration file that is not well-formed YAML
    makes [conf] raise. *)
Lemma conf_parse_error_propagates :
  ~ (forall E pn c key st, exists st' v, conf E pn c key st = (st', Returns v)).
Proof.
  intros H.
  destruct (H (world (only_in_a Malformed)) (Absolute ["a"]) "nogging.yaml" "nogging"
              empty_state) as (st' & v & Hc).
  vm_compute in Hc. discriminate.
Qed.

(** C6: when the nearest directory holding the file, from the starting
    directory upwards, is [top :: up], [conf] returns what that file has
    under the key; it asks for the file in each directory on the way, nearest
    first, and after the first match it opens the file and looks no further.
    Starting in the directory itself ([below = []]), the match is immediate. *)
Theorem conf_nearest_ancestor E c key below top up dd v st :
  (forall q, In q (chain below (top :: up)) -> fs E (joinpath q c) = Absent) ->
  fs E (joinpath (top :: up) c) = RegularFile (Parsed (VDict dd)) ->
  dict_get dd key = Some v ->
  conf E (Absolute (below ++ top :: up)) c key st =
  (State (loggers st)
         (stdout st ++ [(INFO, UsingConfigFile (joinpath (top :: up) c))])
         (probes st ++
          map (fun q => Exists (joinpath q c)) (chain below (top :: up)) ++
          [Exists (joinpath (top :: up) c); Open (joinpath (top :: up) c)]),
   Returns v).
Proof.
  intros Hab Hf Hk.
  destruct (nearest_chain E c below (top :: up) Hab) as [Hn Hp].
  assert (Hn' : nearest E c (top :: up) = top :: up).
  { simpl. simpl in Hf. by rewrite Hf. }
  assert (Hp' : probed E c (top :: up) = [Exists (joinpath (top :: up) c)]).
  { simpl. simpl in Hf. by rewrite Hf. }
  rewrite conf_run. cbv zeta. simpl absolute.
  rewrite Hn, Hn', Hp, Hp', Hf, Hk. simpl.
  by rewrite <- !app_assoc.
Qed.

(** C7: when no directory from the starting one up to the root holds the
    file, [conf] returns [None] and does not raise; after the [exists] calls
    of the way up it makes one [open] call, at the root, and the
    [FileNotFoundError] of that call goes no further. *)
Theorem conf_missing_file E pn c key st :
  (forall q, suffix q (absolute E pn) -> fs E (joinpath q c) = Absent) ->
  conf E pn c key st =
  (State (loggers st)
         (stdout st ++ [(WARNING, ConfigNotFound c)])
         (probes st ++
          map (fun q => Exists (joinpath q c)) (chain (absolute E pn) []) ++
          [Open (joinpath [] c)]),
   Returns VNone).
Proof.
  intros Hab.
  destruct (nearest_chain E c (absolute E pn) []) as [Hn Hp].
  { intros q Hq. apply Hab. apply chain_suffix in Hq. by rewrite app_nil_r in Hq. }
  rewrite app_nil_r in Hn, Hp. simpl in Hn, Hp.
  rewrite conf_run. cbv zeta. rewrite Hn, Hp.
  rewrite (Hab []) by apply suffix_nil.
  simpl. by rewrite app_nil_r.
Qed.

(** ** The removal loop, run *)

(** C1 fails on the code: from an empty registry, one [apply] of a document
    with two stream handlers for [app] leaves two handlers, and a second
    [apply] of the same document leaves three, because the removal loop of
    the second pass removes only one of the two. *)
Theorem apply_twice_not_idempotent E :
  let once := fst (apply E two_streams empty_state) in
  let twice := fst (apply E two_streams once) in
  snd (apply E two_streams empty_state) = Returns tt /\
  snd (apply E two_streams once) = Returns tt /\
  length (handlers (view once "app")) = 2%nat /\
  length (handlers (view twice "app")) = 3%nat.
Proof. cbv zeta. repeat split; vm_compute; reflexivity. Qed.

(** C2 fails on the code: on a logger with two handlers, [handlers: []]
    leaves the second handler attached. *)
Theorem empty_handlers_leaves_one E :
  let r := _setup_logger E "app" (VDict [("handlers", VList [])]) two_handlers in
  snd r = Returns tt /\
  handlers (view (fst r) "app") = [Handler 2 Stream_stdout 0 None].
Proof. cbv zeta. split; vm_compute; reflexivity. Qed.

(** ** What the removal loop leaves *)

Lemma same_refl h : same h h = true.
Proof. unfold same. apply Nat.eqb_refl. Qed.

Lemma existsb_same h hs : In h hs -> existsb (same h) hs = true.
Proof.
  intros Hin. apply existsb_exists. exists h. split; [exact Hin | apply same_refl].
Qed.

Lemma list_remove_length h hs :
  existsb (same h) hs = true -> length (list_remove h hs) = pred (length hs).
Proof.
  induction hs as [| x hs IH]; simpl; [discriminate |].
  destruct (same h x); simpl; [reflexivity |].
  intros Hex. rewrite IH by exact Hex.
  destruct hs; [discriminate | reflexivity].
Qed.

Lemma remove_handler_length h hs i :
  hs !! i = Some h -> length (remove_handler h hs) = pred (length hs).
Proof.
  intros Hi. unfold remove_handler.
  assert (Hex : existsb (same h) hs = true).
  { apply existsb_same. apply list_elem_of_In. eapply list_elem_of_lookup_2. exact Hi. }
  rewrite Hex. by apply list_remove_length.
Qed.

(** More fuel than the length of the list changes nothing: the loop always
    ends because the iterator runs off the list. *)
Lemma sweep_fuel fuel : forall fuel' i hs,
  (length hs - i <= fuel)%nat -> (fuel <= fuel')%nat ->
  sweep fuel' i hs = sweep fuel i hs.
Proof.
  induction fuel as [| fuel IH]; intros fuel' i hs Hlen Hle.
  - assert (Hnone : hs !! i = None) by (apply lookup_ge_None; lia).
    destruct fuel'; simpl; [reflexivity |]. by rewrite Hnone.
  - destruct fuel' as [| fuel']; [lia |]. simpl.
    destruct (hs !! i) as [h |] eqn:Hi; [| reflexivity].
    apply IH; [| lia].
    rewrite (remove_handler_length h hs i Hi).
    apply lookup_lt_Some in Hi. lia.
Qed.

Lemma list_remove_at hs : forall i h,
  NoDup (map h_id hs) -> hs !! i = Some h -> list_remove h hs = delete i hs.
Proof.
  induction hs as [| x hs IH]; intros i h Hnd Hi; [discriminate |].
  apply NoDup_cons in Hnd. destruct Hnd as [Hx Hnd].
  destruct i as [| i]; simpl in Hi.
  - injection Hi as ->. simpl. by rewrite same_refl.
  - simpl. destruct (same h x) eqn:Hs.
    + exfalso. apply Hx. unfold same in Hs. apply Nat.eqb_eq in Hs. rewrite <- Hs.
      apply list_elem_of_In. apply in_map. apply list_elem_of_In.
      eapply list_elem_of_lookup_2. exact Hi.
    + f_equal. by apply IH.
Qed.

Lemma remove_handler_at hs i h :
  NoDup (map h_id hs) -> hs !! i = Some h -> remove_handler h hs = delete i hs.
Proof.
  intros Hnd Hi. unfold remove_handler.
  rewrite existsb_same.
  - by apply list_remove_at.
  - apply list_elem_of_In. eapply list_elem_of_lookup_2. exact Hi.
Qed.

Lemma NoDup_ids_delete hs i :
  NoDup (map h_id hs) -> NoDup (map h_id (delete i hs)).
Proof.
  intros Hnd.
  assert (Hsub : sublist (h_id <$> delete i hs) (h_id <$> hs)).
  { apply fmap_sublist. apply sublist_delete. }
  exact (sublist_NoDup _ _ Hnd Hsub).
Qed.

(** On handlers that are distinct objects, the loop removes every other
    handler, beginning with the one under the iterator. *)
Lemma sweep_odds fuel : forall i hs,
  NoDup (map h_id hs) -> (length hs - i <= fuel)%nat ->
  sweep fuel i hs = take i hs ++ odds (drop i hs).
Proof.
  induction fuel as [| fuel IH]; intros i hs Hnd Hlen.
  - simpl. rewrite drop_ge by lia. rewrite take_ge by lia. by rewrite app_nil_r.
  - simpl. destruct (hs !! i) as [h |] eqn:Hi.
    + rewrite (remove_handler_at hs i h Hnd Hi).
      pose proof (lookup_lt_Some _ _ _ Hi) as Hlt.
      rewrite IH.
      * pose proof (take_drop_middle hs i h Hi) as Hmid.
        set (pre := take i hs) in *. set (post := drop (S i) hs) in *.
        assert (Hpre : length pre = i) by (subst pre; rewrite length_take; lia).
        rewrite <- Hmid.
        replace (delete i (pre ++ h :: post)) with (pre ++ post).
        2:{ rewrite <- Hpre. rewrite delete_middle. reflexivity. }
        replace (take (S i) (pre ++ post)) with (pre ++ take 1 post).
        2:{ rewrite take_app. rewrite Hpre.
            replace (S i - i)%nat with 1%nat by lia.
            rewrite (take_ge pre) by lia. reflexivity. }
        replace (drop (S i) (pre ++ post)) with (drop 1 post).
        2:{ rewrite drop_app. rewrite Hpre.
            replace (S i - i)%nat with 1%nat by lia.
            rewrite (drop_ge pre) by lia. reflexivity. }
        replace (take i (pre ++ h :: post)) with pre.
        2:{ rewrite take_app. rewrite Hpre. rewrite Nat.sub_diag.
            rewrite (take_ge pre) by lia. simpl. by rewrite app_nil_r. }
        replace (drop i (pre ++ h :: post)) with (h :: post).
        2:{ rewrite drop_app. rewrite Hpre. rewrite Nat.sub_diag.
            rewrite (drop_ge pre) by lia. reflexivity. }
        rewrite <- app_assoc. f_equal.
        destruct post as [| y post]; reflexivity.
      * by apply NoDup_ids_delete.
      * rewrite length_delete by eauto. lia.
    + apply lookup_ge_None in Hi.
      rewrite drop_ge by lia. rewrite take_ge by lia. by rewrite app_nil_r.
Qed.

Lemma odds_length hs : length (odds hs) = (length hs / 2)%nat.
Proof.
  assert (H : forall n hs, (length hs <= n)%nat -> length (odds hs) = (length hs / 2)%nat).
  { clear hs. induction n as [| n IH]; intros hs Hn.
    - destruct hs; [reflexivity | simpl in Hn; lia].
    - destruct hs as [| x [| y hs]]; [reflexivity | reflexivity |].
      simpl odds. simpl length. rewrite IH by (simpl in Hn; lia).
      change (S (S (length hs))) with (2 + length hs)%nat.
      replace (2 + length hs)%nat with (length hs + 1 * 2)%nat by lia.
      rewrite Nat.div_add by lia. lia. }
  by apply (H (length hs)).
Qed.

(** Of [n] handlers, the loop leaves the [n / 2] at the odd positions. *)
Lemma kept_odds hs :
  NoDup (map h_id hs) -> kept hs = odds hs /\ length (kept hs) = (length hs / 2)%nat.
Proof.
  intros Hnd. unfold kept.
  rewrite (sweep_odds (length hs) 0 hs Hnd) by lia.
  rewrite take_0, drop_0. simpl. split; [reflexivity | apply odds_length].
Qed.

(** ** The properties at concrete inputs *)

Lemma setup_logger_level_witness :
  In ("DEBUG", 10) severity_table /\
  level (view (fst (_setup_logger (world no_files) "app"
                      (VDict [("level", VStr "DEBUG")]) two_handlers)) "app") = 10.
Proof.
  split; [left; reflexivity |].
  apply (proj1 (setup_logger_level (world no_files) "app"
                  [("level", VStr "DEBUG")] two_handlers) "DEBUG" 10).
  - left; reflexivity.
  - reflexivity.
Defined.

Lemma level_only_keeps_handlers_witness :
  dict_get [("level", VStr "ERROR")] "handlers" = None /\
  handlers (view (fst (_setup_logger (world no_files) "app"
                         (VDict [("level", VStr "ERROR")]) two_handlers)) "app") =
  handlers (view two_handlers "app").
Proof.
  split; [reflexivity |].
  apply (level_only_keeps_handlers (world no_files) "app"
           [("level", VStr "ERROR")] two_handlers).
  reflexivity.
Defined.

Lemma null_handlers_same_as_absent_witness :
  dict_get [("level", VStr "ERROR"); ("handlers", VNone)] "handlers" = Some VNone /\
  _setup_logger (world no_files) "app"
    (VDict [("level", VStr "ERROR"); ("handlers", VNone)]) two_handlers =
  _setup_logger (world no_files) "app"
    (VDict (dict_del [("level", VStr "ERROR"); ("handlers", VNone)] "handlers"))
    two_handlers.
Proof.
  split; [reflexivity |].
  apply (null_handlers_same_as_absent (world no_files) "app"
           [("level", VStr "ERROR"); ("handlers", VNone)] two_handlers).
  reflexivity.
Defined.

Lemma unknown_handler_type_skipped_witness :
  dict_get [("level", VStr "DEBUG"); ("handlers", bogus_handlers)] "handlers" =
    Some bogus_handlers /\
  level_field (dict_get [("level", VStr "DEBUG"); ("handlers", bogus_handlers)] "level")
              (Some 10) /\
  snd (_setup_logger (world no_files) "app"
         (VDict [("level", VStr "DEBUG"); ("handlers", bogus_handlers)]) two_handlers) =
  Returns tt.
Proof.
  assert (Hl : level_field
                 (dict_get [("level", VStr "DEBUG"); ("handlers", bogus_handlers)] "level")
                 (Some 10)).
  { apply level_name. reflexivity. }
  split; [reflexivity |]. split; [exact Hl |].
  apply (unknown_handler_type_skipped (world no_files) "app"
           [("level", VStr "DEBUG"); ("handlers", bogus_handlers)] (Some 10) two_handlers).
  - reflexivity.
  - exact Hl.
Defined.

Lemma file_handler_filename_witness :
  _get_handler (world no_files) (VDict nameless_file_entry) empty_state =
    (empty_state, Raises KeyError) /\
  (exists e, snd (apply (world no_files) (VDict nameless_file_items) empty_state) = Raises e) /\
  (exists e,
      snd (setup (world (only_in_a (Parsed (VDict [("nogging", VDict nameless_file_items)]))))
             (Absolute ["a"]) empty_state) = Raises e) /\
  (exists h,
      _get_handler (world no_files)
        (VDict [("type", VStr "FileHandler"); ("filename", VStr "app.log")]) empty_state =
        (empty_state, Returns (Some h)) /\
      h_sink h = File "app.log" "a" "utf-8").
Proof.
  split; [| split; [| split]].
  - apply (proj1 (file_handler_filename (world no_files))); reflexivity.
  - apply (proj1 (proj2 (file_handler_filename (world no_files)))
             nameless_file_items "app"
             [("handlers", VList [VDict nameless_file_entry])]
             [VDict nameless_file_entry] nameless_file_entry empty_state).
    + left; reflexivity.
    + reflexivity.
    + left; reflexivity.
    + reflexivity.
    + reflexivity.
  - eapply (proj1 (proj2 (proj2 (file_handler_filename
               (world (only_in_a (Parsed (VDict [("nogging", VDict nameless_file_items)])))))))
             (Absolute ["a"]) nameless_file_items "app"
             [("handlers", VList [VDict nameless_file_entry])]
             [VDict nameless_file_entry] nameless_file_entry empty_state).
    + vm_compute. reflexivity.
    + left; reflexivity.
    + reflexivity.
    + left; reflexivity.
    + reflexivity.
    + reflexivity.
  - apply (proj2 (proj2 (proj2 (file_handler_filename (world no_files))))
             [("type", VStr "FileHandler"); ("filename", VStr "app.log")] "app.log"
             empty_state); reflexivity.
Defined.

Lemma conf_nearest_ancestor_witness :
  let E := world (only_in_a (Parsed (VDict [("nogging", VDict [])]))) in
  conf E (Absolute ["c"; "b"; "a"]) "nogging.yaml" "nogging" empty_state =
    (State ∅ [(INFO, UsingConfigFile ["nogging.yaml"; "a"])]
           [Exists ["nogging.yaml"; "c"; "b"; "a"]; Exists ["nogging.yaml"; "b"; "a"];
            Exists ["nogging.yaml"; "a"]; Open ["nogging.yaml"; "a"]],
     Returns (VDict [])) /\
  conf E (Absolute ["a"]) "nogging.yaml" "nogging" empty_state =
    (State ∅ [(INFO, UsingConfigFile ["nogging.yaml"; "a"])]
           [Exists ["nogging.yaml"; "a"]; Open ["nogging.yaml"; "a"]],
     Returns (VDict [])).
Proof.
  cbv zeta. split.
  - apply (conf_nearest_ancestor
             (world (only_in_a (Parsed (VDict [("nogging", VDict [])]))))
             "nogging.yaml" "nogging" ["c"; "b"] "a" [] [("nogging", VDict [])] (VDict [])
             empty_state).
    + intros q [<- | [<- | []]]; reflexivity.
    + reflexivity.
    + reflexivity.
  - apply (conf_nearest_ancestor
             (world (only_in_a (Parsed (VDict [("nogging", VDict [])]))))
             "nogging.yaml" "nogging" [] "a" [] [("nogging", VDict [])] (VDict [])
             empty_state).
    + intros q [].
    + reflexivity.
    + reflexivity.
Defined.

Lemma conf_missing_file_witness :
  conf (world no_files) (Absolute ["c"; "b"; "a"]) "nogging.yaml" "nogging" empty_state =
  (State ∅ [(WARNING, ConfigNotFound "nogging.yaml")]
         [Exists ["nogging.yaml"; "c"; "b"; "a"]; Exists ["nogging.yaml"; "b"; "a"];
          Exists ["nogging.yaml"; "a"]; Open ["nogging.yaml"]],
   Returns VNone).
Proof.
  apply (conf_missing_file (world no_files) (Absolute ["c"; "b"; "a"])
           "nogging.yaml" "nogging" empty_state).
  intros q _. reflexivity.
Defined.

(** * Further properties of the code *)

(** ** Loops *)

Lemma bind_assoc {A B C} (m : M A) (k : A -> M B) (k' : B -> M C) st :
  bind (bind m k) k' st = bind m (fun a => bind (k a) k') st.
Proof.
  unfold bind. destruct (m st) as [st1 [a | e]]; reflexivity.
Qed.

Lemma bind_ext {A B} (m : M A) (k k' : A -> M B) st :
  (forall a st1, k a st1 = k' a st1) -> bind m k st = bind m k' st.
Proof.
  intros Hk. unfold bind. destruct (m st) as [st1 [a | e]]; [apply Hk | reflexivity].
Qed.

Lemma for_each_app {A} (xs ys : list A) (body : A -> M unit) st :
  for_each (xs ++ ys) body st = (for_each xs body ;;; for_each ys body) st.
Proof.
  revert st. induction xs as [| x xs IH]; intros st; simpl.
  - reflexivity.
  - rewrite bind_assoc. apply bind_ext. intros _ st1. apply IH.
Qed.


(** ** Frames *)

















Lemma apply_items E items st :
  apply E (VDict items) st =
  for_each items (fun kv => _setup_logger E (fst kv) (snd kv)) st.
Proof.
  unfold apply.
  assert (Hitems : py_items (py_or (VDict items) (VDict [])) st = (st, Returns items)).
  { destruct items; reflexivity. }
  erewrite bind_returns by exact Hitems. reflexivity.
Qed.



(** X3: applying a document is applying its entries in order: the document
    [a ++ b] acts as [a] followed by [b], and [b] is not reached when [a]
    raises. *)
Theorem apply_app E a b st :
  apply E (VDict (a ++ b)) st = (apply E (VDict a) ;;; apply E (VDict b)) st.
Proof.
  rewrite apply_items, for_each_app. unfold bind.
  rewrite apply_items.
  destruct (for_each a (fun kv => _setup_logger E (fst kv) (snd kv)) st) as [st1 [[] | e]];
    [| reflexivity].
  by rewrite apply_items.
Qed.

Lemma apply_falsy E document st :
  truthy document = false -> apply E document st = (st, Returns tt).
Proof. intros Hf. unfold apply, py_or. rewrite Hf. reflexivity. Qed.

(** X4: what [conf] returned need not be a mapping.  A falsy value (null,
    false, 0, the empty string, an empty sequence or mapping) configures
    nothing; any other value that is not a mapping makes [apply] raise
    [AttributeError] before any logger is touched. *)
Theorem apply_not_a_mapping E document st :
  (truthy document = false -> apply E document st = (st, Returns tt)) /\
  (truthy document = true -> (forall d, document <> VDict d) ->
   apply E document st = (st, Raises AttributeError)).
Proof.
  split.
  - intros Hf. unfold apply, py_or. rewrite Hf. reflexivity.
  - intros Ht Hd. unfold apply, py_or. rewrite Ht.
    destruct document; try reflexivity.
    exfalso. by apply (Hd d).
Qed.

(** X5: [conf] never changes the logger registry. *)
Theorem conf_keeps_registry E pn c key st :
  loggers (fst (conf E pn c key st)) = loggers st.
Proof.
  rewrite conf_run. cbv zeta.
  destruct (fs E (joinpath (nearest E c (absolute E pn)) c)) as [| | [| doc]];
    try reflexivity.
  destruct doc; try reflexivity.
  destruct (dict_get d key); reflexivity.
Qed.

Lemma nearest_all_absent E c p :
  (forall q, In q (chain p []) -> fs E (joinpath q c) = Absent) ->
  nearest E c p = [] /\
  probed E c p = map (fun q => Exists (joinpath q c)) (chain p []).
Proof.
  intros Hab. destruct (nearest_chain E c p [] Hab) as [Hn Hp].
  rewrite app_nil_r in Hn, Hp. simpl in Hn, Hp.
  rewrite app_nil_r in Hp. by split.
Qed.

(** X6: the root directory is never asked whether it holds the file, but the
    file is opened there all the same: a configuration file that exists only
    at the root is reported as not found and then used. *)
Theorem conf_file_at_root E pn c key dd v st :
  (forall q, In q (chain (absolute E pn) []) -> fs E (joinpath q c) = Absent) ->
  fs E (joinpath [] c) = RegularFile (Parsed (VDict dd)) ->
  dict_get dd key = Some v ->
  conf E pn c key st =
  (State (loggers st)
         (stdout st ++ [(WARNING, ConfigNotFound c)])
         (probes st ++
          map (fun q => Exists (joinpath q c)) (chain (absolute E pn) []) ++
          [Open (joinpath [] c)]),
   Returns v).
Proof.
  intros Hab Hf Hk.
  destruct (nearest_all_absent E c (absolute E pn) Hab) as [Hn Hp].
  rewrite conf_run. cbv zeta. rewrite Hn, Hp, Hf, Hk. reflexivity.
Qed.

(** X7: the search does not resume after a bad match.  When the nearest file
    parses to a mapping without the key, [conf] prints the error and returns
    [None]; no directory above is looked at, whatever it holds. *)
Theorem conf_nearest_without_key E c key below top up dd st :
  (forall q, In q (chain below (top :: up)) -> fs E (joinpath q c) = Absent) ->
  fs E (joinpath (top :: up) c) = RegularFile (Parsed (VDict dd)) ->
  dict_get dd key = None ->
  conf E (Absolute (below ++ top :: up)) c key st =
  (State (loggers st)
         (stdout st ++ [(INFO, UsingConfigFile (joinpath (top :: up) c));
                        (ERROR, KeyNotFound key)])
         (probes st ++
          map (fun q => Exists (joinpath q c)) (chain below (top :: up)) ++
          [Exists (joinpath (top :: up) c); Open (joinpath (top :: up) c)]),
   Returns VNone).
Proof.
  intros Hab Hf Hk.
  destruct (nearest_chain E c below (top :: up) Hab) as [Hn Hp].
  assert (Hn' : nearest E c (top :: up) = top :: up).
  { simpl. simpl in Hf. by rewrite Hf. }
  assert (Hp' : probed E c (top :: up) = [Exists (joinpath (top :: up) c)]).
  { simpl. simpl in Hf. by rewrite Hf. }
  rewrite conf_run. cbv zeta. simpl absolute.
  rewrite Hn, Hn', Hp, Hp', Hf, Hk. simpl.
  by rewrite <- !app_assoc.
Qed.

(** X8: [setup] has nothing to configure, returns normally and leaves the
    registry as it was, when no file is found, when the file found is a
    mapping without the key [nogging], and when the value under the key is
    falsy (such as null). *)
Theorem setup_nothing_to_configure E pn st :
  let target := joinpath (nearest E (APP +:+ ".yaml") (absolute E pn)) (APP +:+ ".yaml") in
  fs E target = Absent \/
  (exists dd, fs E target = RegularFile (Parsed (VDict dd)) /\
              dict_get dd "nogging" = None) \/
  (exists dd v, fs E target = RegularFile (Parsed (VDict dd)) /\
                dict_get dd "nogging" = Some v /\ truthy v = false) ->
  snd (setup E pn st) = Returns tt /\
  loggers (fst (setup E pn st)) = loggers st.
Proof.
  cbv zeta. intros H. unfold setup.
  pose proof (conf_run E pn (APP +:+ ".yaml") "nogging" st) as Hc. cbv zeta in Hc.
  destruct H as [Hf | [(dd & Hf & Hk) | (dd & v & Hf & Hk & Hv)]];
    rewrite Hf in Hc; try rewrite Hk in Hc;
    erewrite bind_returns by exact Hc.
  - split; reflexivity.
  - split; reflexivity.
  - rewrite (apply_falsy E v _ Hv). split; reflexivity.
Qed.

(** ** The level block and the handler block, step by step *)

Lemma setup_logger_step E name config st :
  exists st0,
    registry_kept st st0 /\ output_kept st st0 /\
    _setup_logger E name config st =
    (setup_level E name config ;;; setup_handlers E name config) st0.
Proof.
  unfold _setup_logger.
  pose proof (getLogger_returns name st) as Hr.
  pose proof (getLogger_registry name st) as Hk.
  pose proof (getLogger_output name st) as Ho.
  destruct (getLogger name st) as [st0 r] eqn:Hg. simpl in Hr, Hk, Ho. subst r.
  exists st0. split; [exact Hk |]. split; [exact Ho |].
  erewrite bind_returns by exact Hg. reflexivity.
Qed.

Lemma state_eta st : State (loggers st) (stdout st) (probes st) = st.
Proof. destruct st; reflexivity. Qed.

Lemma setup_level_rejected E name d v e st :
  dict_get d "level" = Some v ->
  level_rejected E v e ->
  setup_level E name (VDict d) st = (st, Raises e).
Proof.
  intros Hd Hr. unfold setup_level, _get_level, bind. simpl. rewrite Hd.
  inversion Hr as [s Hc Ha | s o Hc Ha | l | m]; subst; simpl;
    unfold getattr_logging; try rewrite Hc; try rewrite Ha; reflexivity.
Qed.

(** What the logger looks like after the level block with an accepted
    [level] field. *)
Lemma setup_level_view E name d o st :
  level_field (dict_get d "level") o ->
  let st1 := fst (setup_level E name (VDict d) st) in
  snd (setup_level E name (VDict d) st) = Returns tt /\
  output_kept st st1 /\
  handlers (view st1 name) = handlers (view st name) /\
  level (view st1 name) = match o with Some z => z | None => level (view st name) end.
Proof.
  intros H. cbv zeta. rewrite (setup_level_run E name d o st H). cbn [fst snd].
  split; [reflexivity |]. destruct o as [z |].
  - split; [split; reflexivity |].
    rewrite view_set_logger, decide_True by reflexivity. split; reflexivity.
  - split; [split; reflexivity |]. split; reflexivity.
Qed.

(** A new handler is appended to the list of the logger. *)
Lemma addHandler_fresh name sk z f st :
  view (fst (addHandler name (Handler (fresh_id (loggers st)) sk z f) st)) name =
  Logger (level (view st name))
         (handlers (view st name) ++ [Handler (fresh_id (loggers st)) sk z f]) /\
  forall h, In h (handlers (view st name)) -> h_id h <> fresh_id (loggers st).
Proof.
  assert (Hnew : forall h, In h (handlers (view st name)) -> h_id h <> fresh_id (loggers st)).
  { intros h Hin. pose proof (fresh_id_gt (loggers st) name h Hin). lia. }
  split; [| exact Hnew].
  rewrite addHandler_view, decide_True by reflexivity.
  f_equal. apply add_handler_new. exact Hnew.
Qed.

Lemma get_handler_run E e sk st :
  entry_sink E e sk ->
  _get_handler E (VDict e) st =
  (st, Returns (Some (Handler (fresh_id (loggers st)) sk 0 None))).
Proof.
  intros H. unfold _get_handler, bind. simpl.
  inversion H as [e' Ht | e' f Ht Hf Ho]; subst; rewrite Ht; simpl.
  - reflexivity.
  - rewrite Hf. simpl. rewrite Ho. reflexivity.
Qed.

Lemma get_handler_formatter_run E e f st :
  format_field E (dict_get e "format") f ->
  _get_handler_formatter E (VDict e) st = (st, Returns f).
Proof.
  intros H. unfold _get_handler_formatter, bind. simpl.
  inversion H as [Hd | fmt Hok Hd]; subst; [reflexivity |].
  simpl. rewrite Hok. reflexivity.
Qed.

Lemma setup_handler_run E name e sk f o st :
  entry_sink E e sk ->
  format_field E (dict_get e "format") f ->
  level_field (dict_get e "level") o ->
  setup_handler E name (VDict e) st =
  addHandler name (Handler (fresh_id (loggers st)) sk (handler_level o) f) st.
Proof.
  intros Hs Hf Hl. unfold setup_handler.
  erewrite bind_returns by (apply get_handler_run; exact Hs). cbv beta iota.
  erewrite bind_returns by (apply get_handler_formatter_run; exact Hf).
  erewrite bind_returns by (eapply get_level_run; exact Hl).
  destruct o as [z |], f as [fmt |]; reflexivity.
Qed.

Lemma setup_handler_unknown E name e t st :
  dict_get e "type" = Some t ->
  unknown_type t = true ->
  setup_handler E name (VDict e) st = log WARNING (InvalidHandlerType t) st.
Proof.
  intros Ht Hu. unfold unknown_type in Hu. apply andb_prop in Hu. destruct Hu as [H1 H2].
  apply negb_true_iff in H1, H2.
  unfold setup_handler, _get_handler, bind. simpl. rewrite Ht. simpl.
  rewrite H1, H2. reflexivity.
Qed.

Lemma for_each_unknown E name : forall l ts st,
  map entry_type l = map Some ts ->
  forallb unknown_type ts = true ->
  for_each l (setup_handler E name) st =
  (State (loggers st)
         (stdout st ++ map (fun t => (WARNING, InvalidHandlerType t)) ts)
         (probes st),
   Returns tt).
Proof.
  induction l as [| e l IH]; intros ts st Hm Hu.
  - destruct ts; [| discriminate]. simpl. rewrite app_nil_r, state_eta. reflexivity.
  - destruct ts as [| t ts]; [discriminate |].
    simpl in Hm. injection Hm as He Hm.
    simpl in Hu. apply andb_prop in Hu. destruct Hu as [Ht Hu].
    destruct e; try discriminate. simpl in He.
    simpl for_each. unfold bind.
    rewrite (setup_handler_unknown E name d t st He Ht).
    unfold log at 1. cbv beta iota.
    rewrite (IH ts _ Hm Hu). simpl. rewrite <- app_assoc. reflexivity.
Qed.

Lemma setup_handler_bad_entry E name e st :
  entry_type e = None ->
  setup_handler E name e st =
  (st, Raises (match e with VDict _ => KeyError | _ => TypeError end)).
Proof.
  intros H. unfold setup_handler, _get_handler, bind.
  destruct e; try reflexivity.
  simpl in H. simpl. rewrite H. reflexivity.
Qed.

(** The state in which the entries are processed: the levels are set and the
    removal loop has run. *)
Lemma setup_logger_entries E name d o l st :
  dict_get d "handlers" = Some (VList l) ->
  level_field (dict_get d "level") o ->
  exists st1,
    stdout st1 = stdout st /\ probes st1 = probes st /\
    view st1 name =
      Logger (match o with Some z => z | None => level (view st name) end)
             (kept (handlers (view st name))) /\
    _setup_logger E name (VDict d) st = for_each l (setup_handler E name) st1.
Proof.
  intros Hh Hl.
  destruct (setup_logger_step E name (VDict d) st) as (st0 & Hk & [Ho Hp] & Hrun).
  destruct (setup_level_view E name d o st0 Hl) as (Hret & [Ho1 Hp1] & Hhs & Hlv).
  destruct (remove_loop_run name (fst (setup_level E name (VDict d) st0)))
    as (_ & [Ho2 Hp2] & Hv).
  exists (fst (remove_loop name (fst (setup_level E name (VDict d) st0)))).
  split; [congruence |]. split; [congruence |]. split.
  - rewrite Hv, decide_True by reflexivity. rewrite Hhs, Hlv, (Hk name). reflexivity.
  - rewrite Hrun. unfold bind at 1.
    destruct (setup_level E name (VDict d) st0) as [st1 r]. simpl in Hret. subst r.
    apply setup_handlers_list. exact Hh.
Qed.

(** ** Levels *)

(** X9: a [level] that is rejected (a name that [logging] does not have or
    that is no level, a sequence, a mapping) makes [_setup_logger] raise
    before the handlers are looked at: no logger changes and nothing is
    printed, even with a [handlers] key in the specification. *)
Theorem rejected_level_aborts E name d v e st :
  dict_get d "level" = Some v ->
  level_rejected E v e ->
  snd (_setup_logger E name (VDict d) st) = Raises e /\
  (forall n, view (fst (_setup_logger E name (VDict d) st)) n = view st n) /\
  stdout (fst (_setup_logger E name (VDict d) st)) = stdout st.
Proof.
  intros Hd Hr.
  destruct (setup_logger_step E name (VDict d) st) as (st0 & Hk & [Ho _] & Hrun).
  rewrite Hrun.
  erewrite bind_raises by (eapply setup_level_rejected; eassumption).
  simpl. repeat split; [exact Hk | exact Ho].
Qed.

(** X10: a [level] key whose value is null is not told apart from a missing
    key: the run is the same as on the specification without the key, and
    the logger keeps its level. *)
Theorem null_level_same_as_absent E name d st :
  dict_get d "level" = Some VNone ->
  _setup_logger E name (VDict d) st =
    _setup_logger E name (VDict (dict_del d "level")) st /\
  level (view (fst (_setup_logger E name (VDict d) st)) name) = level (view st name).
Proof.
  intros H. split.
  - unfold _setup_logger. apply bind_ext. intros logger st0.
    assert (Hl : forall st1,
               setup_level E logger (VDict (dict_del d "level")) st1 =
               setup_level E logger (VDict d) st1).
    { intros st1.
      rewrite (setup_level_run E logger d None st1) by (rewrite H; constructor).
      rewrite (setup_level_run E logger (dict_del d "level") None st1)
        by (rewrite dict_get_del_eq; constructor).
      reflexivity. }
    assert (Hh : forall st1,
               setup_handlers E logger (VDict (dict_del d "level")) st1 =
               setup_handlers E logger (VDict d) st1).
    { intros st1. unfold setup_handlers, _get_handlers. simpl.
      rewrite dict_get_del_ne by discriminate. reflexivity. }
    unfold bind. rewrite Hl.
    destruct (setup_level E logger (VDict d) st0) as [st1 [[] | e]]; [| reflexivity].
    by rewrite Hh.
  - apply (logger_level_after_setup E name d None st). rewrite H. constructor.
Qed.

(** ** The removal loop *)

(** X11: with [handlers: []], a logger whose handlers are distinct objects
    keeps every second one of them: of [n] handlers the [n / 2] at the odd
    positions stay attached. *)
Theorem empty_handlers_keeps_every_other E name d o st :
  dict_get d "handlers" = Some (VList []) ->
  level_field (dict_get d "level") o ->
  NoDup (map h_id (handlers (view st name))) ->
  let r := _setup_logger E name (VDict d) st in
  snd r = Returns tt /\
  handlers (view (fst r) name) = odds (handlers (view st name)) /\
  length (handlers (view (fst r) name)) = (length (handlers (view st name)) / 2)%nat.
Proof.
  intros Hh Hl Hnd. cbv zeta.
  destruct (setup_logger_entries E name d o [] st Hh Hl) as (st1 & _ & _ & Hv & Hrun).
  rewrite Hrun. simpl. rewrite Hv. simpl.
  destruct (kept_odds _ Hnd) as [Hk Hlen].
  split; [reflexivity |]. split; [exact Hk | exact Hlen].
Qed.

Lemma kept_short hs : (length hs <= 1)%nat -> kept hs = [].
Proof.
  destruct hs as [| h [| h' hs]]; simpl; intros Hlen; [reflexivity | | lia].
  unfold kept. cbn [length sweep lookup list_lookup].
  unfold remove_handler. cbn [existsb list_remove]. rewrite same_refl. reflexivity.
Qed.

(** X12: on a logger that has at most one handler the removal is complete:
    [handlers: []] leaves the logger without handlers. *)
Theorem empty_handlers_clears_single E name d o st :
  dict_get d "handlers" = Some (VList []) ->
  level_field (dict_get d "level") o ->
  (length (handlers (view st name)) <= 1)%nat ->
  snd (_setup_logger E name (VDict d) st) = Returns tt /\
  handlers (view (fst (_setup_logger E name (VDict d) st)) name) = [].
Proof.
  intros Hh Hl Hlen.
  destruct (setup_logger_entries E name d o [] st Hh Hl) as (st1 & _ & _ & Hv & Hrun).
  rewrite Hrun. simpl. rewrite Hv. simpl.
  split; [reflexivity | by apply kept_short].
Qed.

(** ** Handler entries *)

Lemma single_entry_run E name d o e sk f ho st :
  dict_get d "handlers" = Some (VList [VDict e]) ->
  level_field (dict_get d "level") o ->
  entry_sink E e sk ->
  format_field E (dict_get e "format") f ->
  level_field (dict_get e "level") ho ->
  let r := _setup_logger E name (VDict d) st in
  snd r = Returns tt /\
  exists i : nat,
    view (fst r) name =
      Logger (match o with Some z => z | None => level (view st name) end)
             (kept (handlers (view st name)) ++ [Handler i sk (handler_level ho) f]) /\
    forall h, In h (kept (handlers (view st name))) -> h_id h <> i.
Proof.
  intros Hh Hl Hs Hf Hhl. cbv zeta.
  destruct (setup_logger_entries E name d o _ st Hh Hl) as (st1 & _ & _ & Hv & Hrun).
  rewrite Hrun. simpl for_each. unfold bind.
  rewrite (setup_handler_run E name e sk f ho st1 Hs Hf Hhl).
  destruct (addHandler_fresh name sk (handler_level ho) f st1) as [Hview Hnew].
  change (addHandler name (Handler (fresh_id (loggers st1)) sk (handler_level ho) f) st1)
    with (fst (addHandler name (Handler (fresh_id (loggers st1)) sk (handler_level ho) f) st1),
          @Returns unit tt).
  cbv beta iota. split; [reflexivity |].
  exists (fresh_id (loggers st1)). cbn [fst ret].
  rewrite Hview. rewrite Hv in Hnew |- *. simpl in Hnew |- *.
  split; [reflexivity | exact Hnew].
Qed.

(** X13: a handler entry of a known type whose [format] and [level] are
    accepted adds exactly one handler, after those that the removal loop
    left: it writes to standard output or appends to the named file, has the
    level of the entry (NOTSET without one) and the formatter of the entry
    (none without one), and is a new object. *)
Theorem single_entry_configured E name d o e sk f ho st :
  dict_get d "handlers" = Some (VList [VDict e]) ->
  level_field (dict_get d "level") o ->
  entry_sink E e sk ->
  format_field E (dict_get e "format") f ->
  level_field (dict_get e "level") ho ->
  let r := _setup_logger E name (VDict d) st in
  snd r = Returns tt /\
  exists i : nat,
    handlers (view (fst r) name) =
      kept (handlers (view st name)) ++ [Handler i sk (handler_level ho) f] /\
    forall h, In h (kept (handlers (view st name))) -> h_id h <> i.
Proof.
  intros Hh Hl Hs Hf Hhl. cbv zeta.
  destruct (single_entry_run E name d o e sk f ho st Hh Hl Hs Hf Hhl)
    as (Hret & i & Hv & Hnew).
  split; [exact Hret |]. exists i. split; [| exact Hnew]. by rewrite Hv.
Qed.

(** X19: on a logger that has at most one handler, a specification with one
    accepted handler entry can be applied again and again: after the first
    and after the second call the logger has the level of the specification
    and exactly one handler, with the same sink, level and formatter. *)
Theorem single_entry_idempotent E name d o e sk f ho st :
  dict_get d "handlers" = Some (VList [VDict e]) ->
  level_field (dict_get d "level") o ->
  entry_sink E e sk ->
  format_field E (dict_get e "format") f ->
  level_field (dict_get e "level") ho ->
  (length (handlers (view st name)) <= 1)%nat ->
  let once := fst (_setup_logger E name (VDict d) st) in
  let twice := fst (_setup_logger E name (VDict d) once) in
  let lv := match o with Some z => z | None => level (view st name) end in
  snd (_setup_logger E name (VDict d) st) = Returns tt /\
  snd (_setup_logger E name (VDict d) once) = Returns tt /\
  exists i j : nat,
    view once name = Logger lv [Handler i sk (handler_level ho) f] /\
    view twice name = Logger lv [Handler j sk (handler_level ho) f].
Proof.
  intros Hh Hl Hs Hf Hhl Hlen. cbv zeta.
  destruct (single_entry_run E name d o e sk f ho st Hh Hl Hs Hf Hhl)
    as (Hret1 & i & Hv1 & _).
  rewrite (kept_short _ Hlen) in Hv1. simpl in Hv1.
  destruct (single_entry_run E name d o e sk f ho
              (fst (_setup_logger E name (VDict d) st)) Hh Hl Hs Hf Hhl)
    as (Hret2 & j & Hv2 & _).
  rewrite Hv1 in Hv2. cbn [handlers level] in Hv2.
  rewrite kept_short in Hv2 by (simpl; lia). simpl in Hv2.
  split; [exact Hret1 |]. split; [exact Hret2 |].
  exists i, j. split; [exact Hv1 |].
  rewrite Hv2. by destruct o.
Qed.

(** X14: entries of unknown types are all skipped: when every entry is a
    mapping with a [type] other than [FileHandler] and [StreamHandler], the
    call returns normally, prints one warning per entry, in order, and
    attaches nothing. *)
Theorem unknown_types_all_skipped E name d o l ts st :
  dict_get d "handlers" = Some (VList l) ->
  level_field (dict_get d "level") o ->
  map entry_type l = map Some ts ->
  forallb unknown_type ts = true ->
  let r := _setup_logger E name (VDict d) st in
  snd r = Returns tt /\
  stdout (fst r) = stdout st ++ map (fun t => (WARNING, InvalidHandlerType t)) ts /\
  handlers (view (fst r) name) = kept (handlers (view st name)).
Proof.
  intros Hh Hl Hm Hu. cbv zeta.
  destruct (setup_logger_entries E name d o l st Hh Hl) as (st1 & Ho & _ & Hv & Hrun).
  rewrite Hrun, (for_each_unknown E name l ts st1 Hm Hu). simpl.
  split; [reflexivity |]. split; [by rewrite Ho |].
  change (handlers (view st1 name) = kept (handlers (view st name))).
  by rewrite Hv.
Qed.

(** X15: the old handlers are removed before the entries are looked at: when
    the first entry is not a mapping ([TypeError]) or has no [type]
    ([KeyError]), the call raises and the logger is left with what the
    removal loop kept, and with the level of the specification. *)
Theorem bad_first_entry E name d o e rest st :
  dict_get d "handlers" = Some (VList (e :: rest)) ->
  level_field (dict_get d "level") o ->
  entry_type e = None ->
  let r := _setup_logger E name (VDict d) st in
  snd r = Raises (match e with VDict _ => KeyError | _ => TypeError end) /\
  view (fst r) name =
    Logger (match o with Some z => z | None => level (view st name) end)
           (kept (handlers (view st name))).
Proof.
  intros Hh Hl He. cbv zeta.
  destruct (setup_logger_entries E name d o _ st Hh Hl) as (st1 & _ & _ & Hv & Hrun).
  rewrite Hrun. simpl for_each.
  erewrite bind_raises by (apply setup_handler_bad_entry; exact He).
  simpl. split; [reflexivity | exact Hv].
Qed.

Lemma setup_handlers_value E name d v st :
  dict_get d "handlers" = Some v ->
  v <> VNone ->
  setup_handlers E name (VDict d) st =
  (do items <- py_iter (py_or v (VList []));
   for_each items (setup_handler E name)) (fst (remove_loop name st)).
Proof.
  intros H Hv. unfold setup_handlers.
  erewrite bind_returns by (apply get_handlers_run; exact H).
  destruct v; try congruence; cbv beta iota;
    erewrite bind_returns by apply remove_loop_pair; reflexivity.
Qed.

Lemma iterate_not_a_sequence E name v st :
  (forall l, v <> VList l) ->
  (do items <- py_iter (py_or v (VList []));
   for_each items (setup_handler E name)) st =
  (st, if truthy v then Raises TypeError else Returns tt).
Proof.
  intros Hv. destruct v as [| b | z | s | l | m | o]; try reflexivity.
  - destruct b; reflexivity.
  - unfold py_or. simpl. destruct (z =? 0); reflexivity.
  - destruct s; reflexivity.
  - exfalso. by apply (Hv l).
  - destruct m as [| [k x] m]; reflexivity.
Qed.

(** X16: a [handlers] value that is neither null nor a sequence still starts
    the removal loop.  If it is falsy (false, 0, the empty string, an empty
    mapping) the call then returns with nothing attached; otherwise it
    raises [TypeError].  Either way the logger is left with what the removal
    loop kept. *)
Theorem handlers_not_a_sequence E name d o v st :
  dict_get d "handlers" = Some v ->
  level_field (dict_get d "level") o ->
  v <> VNone ->
  (forall l, v <> VList l) ->
  let r := _setup_logger E name (VDict d) st in
  snd r = (if truthy v then Raises TypeError else Returns tt) /\
  view (fst r) name =
    Logger (match o with Some z => z | None => level (view st name) end)
           (kept (handlers (view st name))).
Proof.
  intros Hh Hl Hn Hs. cbv zeta.
  destruct (setup_logger_step E name (VDict d) st) as (st0 & Hk & _ & Hrun).
  destruct (setup_level_view E name d o st0 Hl) as (Hret & _ & Hhs & Hlv).
  set (st1 := fst (setup_level E name (VDict d) st0)) in *.
  assert (Hpair : setup_level E name (VDict d) st0 = (st1, Returns tt)).
  { subst st1. destruct (setup_level E name (VDict d) st0) as [s r].
    simpl in Hret. by subst r. }
  rewrite Hrun. erewrite bind_returns by exact Hpair.
  rewrite (setup_handlers_value E name d v st1 Hh Hn).
  rewrite (iterate_not_a_sequence E name v _ Hs). cbn [fst snd].
  split; [reflexivity |].
  destruct (remove_loop_run name st1) as (_ & _ & Hv).
  rewrite Hv, decide_True by reflexivity.
  rewrite Hhs, Hlv, (Hk name). reflexivity.
Qed.

(** X17: a [FileHandler] entry whose file cannot be opened raises the error
    of the open call, and one whose [filename] is not a string raises
    [TypeError]; in both cases nothing is attached and nothing is printed. *)
Theorem file_handler_not_made E name e st :
  dict_get e "type" = Some (VStr "FileHandler") ->
  (forall f x, dict_get e "filename" = Some (VStr f) ->
               FileHandler_error E f = Some x ->
               setup_handler E name (VDict e) st = (st, Raises x)) /\
  (forall v, dict_get e "filename" = Some v -> (forall f, v <> VStr f) ->
             setup_handler E name (VDict e) st = (st, Raises TypeError)).
Proof.
  intros Ht. split.
  - intros f x Hf Ho. unfold setup_handler, _get_handler, bind. simpl.
    rewrite Ht. simpl. rewrite Hf. simpl. rewrite Ho. reflexivity.
  - intros v Hf Hv. unfold setup_handler, _get_handler, bind. simpl.
    rewrite Ht. simpl. rewrite Hf.
    destruct v; try reflexivity. exfalso. by apply (Hv s).
Qed.

(** X18: a handler is attached only once it is completely configured: when
    [logging.Formatter] rejects the [format] of the entry, or the [level] of
    the entry is rejected, the call raises and the handler that was made is
    not attached. *)
Theorem rejected_format_or_level E name e sk st :
  entry_sink E e sk ->
  (forall fmt x, dict_get e "format" = Some fmt ->
                 Formatter_error E fmt = Some x ->
                 setup_handler E name (VDict e) st = (st, Raises x)) /\
  (forall f v x, format_field E (dict_get e "format") f ->
                 dict_get e "level" = Some v ->
                 level_rejected E v x ->
                 setup_handler E name (VDict e) st = (st, Raises x)).
Proof.
  intros Hs. split.
  - intros fmt x Hf Hx. unfold setup_handler.
    erewrite bind_returns by (apply get_handler_run; exact Hs). cbv beta iota.
    assert (Hfr : _get_handler_formatter E (VDict e) st = (st, Raises x)).
    { unfold _get_handler_formatter, bind. simpl. rewrite Hf. simpl.
      rewrite Hx. reflexivity. }
    erewrite bind_raises by exact Hfr. reflexivity.
  - intros f v x Hf Hv Hx. unfold setup_handler.
    erewrite bind_returns by (apply get_handler_run; exact Hs). cbv beta iota.
    erewrite bind_returns by (apply get_handler_formatter_run; exact Hf).
    unfold _get_level, bind. simpl. rewrite Hv.
    inversion Hx as [s Hc Ha | s o Hc Ha | l | m]; subst; simpl;
      unfold getattr_logging; try rewrite Hc; try rewrite Ha; reflexivity.
Qed.

(** ** The further properties at concrete inputs *)



Lemma apply_not_a_mapping_witness :
  apply (world no_files) VNone two_handlers = (two_handlers, Returns tt) /\
  apply (world no_files) (VList [VStr "app"]) two_handlers =
    (two_handlers, Raises AttributeError).
Proof.
  split.
  - apply (proj1 (apply_not_a_mapping (world no_files) VNone two_handlers)). reflexivity.
  - apply (proj2 (apply_not_a_mapping (world no_files) (VList [VStr "app"]) two_handlers)).
    + reflexivity.
    + discriminate.
Defined.

Lemma conf_file_at_root_witness :
  conf (world (only_at_root (Parsed (VDict [("nogging", VDict [])]))))
       (Absolute ["b"; "a"]) "nogging.yaml" "nogging" empty_state =
  (State ∅ [(WARNING, ConfigNotFound "nogging.yaml")]
         [Exists ["nogging.yaml"; "b"; "a"]; Exists ["nogging.yaml"; "a"];
          Open ["nogging.yaml"]],
   Returns (VDict [])).
Proof.
  apply (conf_file_at_root
           (world (only_at_root (Parsed (VDict [("nogging", VDict [])]))))
           (Absolute ["b"; "a"]) "nogging.yaml" "nogging" [("nogging", VDict [])] (VDict [])
           empty_state).
  - intros q [<- | [<- | []]]; reflexivity.
  - reflexivity.
  - reflexivity.
Defined.

Lemma conf_nearest_without_key_witness :
  conf (world (only_in_a (Parsed (VDict [("other", VDict [])]))))
       (Absolute ["c"; "b"; "a"]) "nogging.yaml" "nogging" empty_state =
  (State ∅ [(INFO, UsingConfigFile ["nogging.yaml"; "a"]); (ERROR, KeyNotFound "nogging")]
         [Exists ["nogging.yaml"; "c"; "b"; "a"]; Exists ["nogging.yaml"; "b"; "a"];
          Exists ["nogging.yaml"; "a"]; Open ["nogging.yaml"; "a"]],
   Returns VNone).
Proof.
  apply (conf_nearest_without_key
           (world (only_in_a (Parsed (VDict [("other", VDict [])]))))
           "nogging.yaml" "nogging" ["c"; "b"] "a" [] [("other", VDict [])] empty_state).
  - intros q [<- | [<- | []]]; reflexivity.
  - reflexivity.
  - reflexivity.
Defined.

Lemma setup_nothing_to_configure_witness :
  snd (setup (world no_files) (Absolute ["b"; "a"]) two_handlers) = Returns tt /\
  loggers (fst (setup (world no_files) (Absolute ["b"; "a"]) two_handlers)) =
  loggers two_handlers.
Proof.
  apply (setup_nothing_to_configure (world no_files) (Absolute ["b"; "a"]) two_handlers).
  left. reflexivity.
Defined.

Lemma rejected_level_aborts_witness :
  level_rejected (world no_files) (VStr "LOUD") AttributeError /\
  snd (_setup_logger (world no_files) "app"
         (VDict [("level", VStr "LOUD"); ("handlers", VList [])]) two_handlers) =
  Raises AttributeError.
Proof.
  assert (Hr : level_rejected (world no_files) (VStr "LOUD") AttributeError).
  { apply rejected_name; reflexivity. }
  split; [exact Hr |].
  apply (rejected_level_aborts (world no_files) "app"
           [("level", VStr "LOUD"); ("handlers", VList [])] (VStr "LOUD") AttributeError
           two_handlers).
  - reflexivity.
  - exact Hr.
Defined.

Lemma null_level_same_as_absent_witness :
  dict_get [("level", VNone); ("handlers", VList [])] "level" = Some VNone /\
  level (view (fst (_setup_logger (world no_files) "app"
                      (VDict [("level", VNone); ("handlers", VList [])]) two_handlers))
          "app") =
  level (view two_handlers "app").
Proof.
  split; [reflexivity |].
  apply (null_level_same_as_absent (world no_files) "app"
           [("level", VNone); ("handlers", VList [])] two_handlers).
  reflexivity.
Defined.

Lemma two_handlers_distinct : NoDup (map h_id (handlers (view two_handlers "app"))).
Proof.
  change (NoDup [1%nat; 2%nat]).
  apply NoDup_cons. split; [| apply NoDup_singleton].
  intros H. apply list_elem_of_singleton in H. discriminate.
Qed.

Lemma empty_handlers_keeps_every_other_witness :
  NoDup (map h_id (handlers (view two_handlers "app"))) /\
  handlers (view (fst (_setup_logger (world no_files) "app"
                         (VDict [("handlers", VList [])]) two_handlers)) "app") =
  odds (handlers (view two_handlers "app")).
Proof.
  split; [exact two_handlers_distinct |].
  apply (empty_handlers_keeps_every_other (world no_files) "app"
           [("handlers", VList [])] None two_handlers).
  - reflexivity.
  - constructor.
  - exact two_handlers_distinct.
Defined.

Lemma empty_handlers_clears_single_witness :
  (length (handlers (view one_handler "app")) <= 1)%nat /\
  handlers (view (fst (_setup_logger (world no_files) "app"
                         (VDict [("handlers", VList [])]) one_handler)) "app") = [].
Proof.
  assert (Hlen : (length (handlers (view one_handler "app")) <= 1)%nat).
  { apply Nat.le_refl. }
  split; [exact Hlen |].
  apply (empty_handlers_clears_single (world no_files) "app"
           [("handlers", VList [])] None one_handler).
  - reflexivity.
  - constructor.
  - exact Hlen.
Defined.

Lemma info_stream_entry_fields :
  level_field (dict_get debug_with_stream "level") (Some 10) /\
  entry_sink (world no_files) info_stream_entry Stream_stdout /\
  format_field (world no_files) (dict_get info_stream_entry "format")
               (Some (VStr "%(message)s")) /\
  level_field (dict_get info_stream_entry "level") (Some 20).
Proof.
  split; [apply level_name; reflexivity |].
  split; [apply sink_stream; reflexivity |].
  split; [apply format_given; reflexivity | apply level_name; reflexivity].
Qed.

Lemma single_entry_configured_witness :
  snd (_setup_logger (world no_files) "app" (VDict debug_with_stream) empty_state) =
    Returns tt /\
  exists i : nat,
    handlers (view (fst (_setup_logger (world no_files) "app" (VDict debug_with_stream)
                           empty_state)) "app") =
      kept (handlers (view empty_state "app")) ++
      [Handler i Stream_stdout 20 (Some (VStr "%(message)s"))] /\
    forall h, In h (kept (handlers (view empty_state "app"))) -> h_id h <> i.
Proof.
  destruct info_stream_entry_fields as (Hl & Hs & Hf & Hhl).
  apply (single_entry_configured (world no_files) "app" debug_with_stream (Some 10)
           info_stream_entry Stream_stdout (Some (VStr "%(message)s")) (Some 20)
           empty_state eq_refl Hl Hs Hf Hhl).
Defined.

Lemma single_entry_idempotent_witness :
  exists i j : nat,
    view (fst (_setup_logger (world no_files) "app" (VDict debug_with_stream) one_handler))
         "app" =
      Logger 10 [Handler i Stream_stdout 20 (Some (VStr "%(message)s"))] /\
    view (fst (_setup_logger (world no_files) "app" (VDict debug_with_stream)
                 (fst (_setup_logger (world no_files) "app" (VDict debug_with_stream)
                         one_handler))))
         "app" =
      Logger 10 [Handler j Stream_stdout 20 (Some (VStr "%(message)s"))].
Proof.
  destruct info_stream_entry_fields as (Hl & Hs & Hf & Hhl).
  apply (single_entry_idempotent (world no_files) "app" debug_with_stream (Some 10)
           info_stream_entry Stream_stdout (Some (VStr "%(message)s")) (Some 20)
           one_handler eq_refl Hl Hs Hf Hhl).
  apply Nat.le_refl.
Defined.

Lemma unknown_types_all_skipped_witness :
  stdout (fst (_setup_logger (world no_files) "app"
                 (VDict [("handlers", VList [bogus_entry; VDict [("type", VInt 3)]])])
                 two_handlers)) =
  stdout two_handlers ++
  map (fun t => (WARNING, InvalidHandlerType t)) [VStr "Bogus"; VInt 3].
Proof.
  apply (unknown_types_all_skipped (world no_files) "app"
           [("handlers", VList [bogus_entry; VDict [("type", VInt 3)]])] None
           [bogus_entry; VDict [("type", VInt 3)]] [VStr "Bogus"; VInt 3] two_handlers).
  - reflexivity.
  - constructor.
  - reflexivity.
  - reflexivity.
Defined.

Lemma bad_first_entry_witness :
  entry_type (VStr "StreamHandler") = None /\
  snd (_setup_logger (world no_files) "app"
         (VDict [("handlers", VList [VStr "StreamHandler"])]) two_handlers) =
  Raises TypeError.
Proof.
  split; [reflexivity |].
  apply (bad_first_entry (world no_files) "app"
           [("handlers", VList [VStr "StreamHandler"])] None (VStr "StreamHandler") []
           two_handlers).
  - reflexivity.
  - constructor.
  - reflexivity.
Defined.

Lemma handlers_not_a_sequence_witness :
  snd (_setup_logger (world no_files) "app"
         (VDict [("handlers", VStr "StreamHandler")]) two_handlers) = Raises TypeError /\
  view (fst (_setup_logger (world no_files) "app"
               (VDict [("handlers", VStr "StreamHandler")]) two_handlers)) "app" =
  Logger (level (view two_handlers "app")) (kept (handlers (view two_handlers "app"))).
Proof.
  apply (handlers_not_a_sequence (world no_files) "app"
           [("handlers", VStr "StreamHandler")] None (VStr "StreamHandler") two_handlers).
  - reflexivity.
  - constructor.
  - discriminate.
  - discriminate.
Defined.

Lemma file_handler_not_made_witness :
  setup_handler strict_world "app"
    (VDict [("type", VStr "FileHandler"); ("filename", VStr "/forbidden.log")])
    two_handlers = (two_handlers, Raises OSError) /\
  setup_handler strict_world "app"
    (VDict [("type", VStr "FileHandler"); ("filename", VInt 7)])
    two_handlers = (two_handlers, Raises TypeError).
Proof.
  split.
  - apply (proj1 (file_handler_not_made strict_world "app"
                    [("type", VStr "FileHandler"); ("filename", VStr "/forbidden.log")]
                    two_handlers eq_refl) "/forbidden.log" OSError); reflexivity.
  - apply (proj2 (file_handler_not_made strict_world "app"
                    [("type", VStr "FileHandler"); ("filename", VInt 7)]
                    two_handlers eq_refl) (VInt 7)); [reflexivity | discriminate].
Defined.

Lemma rejected_format_or_level_witness :
  setup_handler strict_world "app"
    (VDict [("type", VStr "StreamHandler"); ("format", VStr "")])
    two_handlers = (two_handlers, Raises ValueError) /\
  setup_handler strict_world "app"
    (VDict [("type", VStr "StreamHandler"); ("level", VStr "LOUD")])
    two_handlers = (two_handlers, Raises AttributeError).
Proof.
  split.
  - apply (proj1 (rejected_format_or_level strict_world "app"
                    [("type", VStr "StreamHandler"); ("format", VStr "")] Stream_stdout
                    two_handlers
                    (sink_stream strict_world
                       [("type", VStr "StreamHandler"); ("format", VStr "")] eq_refl))
             (VStr "") ValueError);
      reflexivity.
  - apply (proj2 (rejected_format_or_level strict_world "app"
                    [("type", VStr "StreamHandler"); ("level", VStr "LOUD")] Stream_stdout
                    two_handlers
                    (sink_stream strict_world
                       [("type", VStr "StreamHandler"); ("level", VStr "LOUD")] eq_refl))
             None (VStr "LOUD") AttributeError).
    + constructor.
    + reflexivity.
    + apply rejected_name; reflexivity.
Defined.
